(** * liblipo: a shallow embedding of the [LiPo] cell monitor

    The development follows [src/lipo.cpp] and [src/lipo/lipo.hpp]:
    - fixed-width integers are [Z] with the wrap-around written out;
    - the fixed-size arrays [Accu], [VCell] and [CellScale] are lists; an
      access outside the array is undefined behaviour in C++ and is reported
      as [Undefined OutOfBounds];
    - a division by zero is undefined behaviour in C++ and is reported as
      [Undefined (DivByZero site)], [site] naming the source line;
    - [analogRead] and [millis] are the two calls into the Arduino core;
      the converter is an oracle indexed by pin and conversion number, the
      clock is the list of values successive [millis()] calls return. *)

From Stdlib Require Import ZArith Lia Bool List.
From stdpp Require Import base list.
Import ListNotations.
Local Open Scope Z_scope.

(** ** Fixed-width integers *)

Definition u32 (x : Z) : Z := x mod 2 ^ 32.
Definition i8 (x : Z) : Z := (x + 128) mod 256 - 128.
Definition UINT32_MAX : Z := 2 ^ 32 - 1.

Definition is_u32 (x : Z) : Prop := 0 <= x < 2 ^ 32.

(** ** Configuration macros of [lipo.hpp] (the defaults; no [lipo_config.h]
    is part of the repository) *)

Definition LIPO_ADCCHANNEL_0 : Z := 0.
Definition LIPO_ADCCHANNELS : Z := 6.
Definition LIPO_DEFAULT_GATETIME : Z := 250.
Definition LIPO_VCELL_MIN : Z := 250.
Definition LIPO_VREFINT : Z := 1200.
Definition LIPO_DENOMINATOR : Z := 11.

(** Modelled from the spec: the STM32 low-level driver macro
    [__LL_ADC_DIGITAL_SCALE(LL_ADC_RESOLUTION_12B)] comes from
    [stm32yyxx_ll_adc.h], which is not part of the sources; the spec gives
    the full-scale digital code of the 12-bit converter as 4095. *)
Definition LL_ADC_DIGITAL_SCALE : Z := 4095.

(** Modelled from the spec: the macro
    [__LL_ADC_CALC_DATA_TO_VOLTAGE(vref, data, LL_ADC_RESOLUTION_12B)] of the
    same header; the spec gives it as
    [raw_mV = referenceVoltage_mV * data / FullScaleCode], here on
    [uint32_t] operands. *)
Definition LL_ADC_CALC_DATA_TO_VOLTAGE (vref data : Z) : Z :=
  u32 (data * vref) / LL_ADC_DIGITAL_SCALE.

(** ** Data *)

(** [BatteryParams_t]: the caller-owned parameter structure. *)
Record BatteryParams_t := mkParams { CellScale : list Z }.

(** The data members of [class LiPo].  The pointer member [pParam] is the
    fixed reference to the [param] component of the [Machine] below. *)
Record LiPo := mkLiPo {
  CellScaleDen : Z;   (* const uint8_t *)
  AdcChStart : Z;     (* uint8_t *)
  AdcChCnt : Z;       (* uint8_t *)
  GateTime : Z;       (* uint16_t *)
  LastTick : Z;       (* uint32_t *)
  SampleCnt : Z;      (* uint32_t *)
  Samples : Z;        (* uint32_t *)
  VRefAdc : Z;        (* uint32_t *)
  Accu : list Z;      (* uint32_t [LIPO_ADCCHANNELS] *)
  VCell : list Z      (* uint32_t [LIPO_ADCCHANNELS] *)
}.

(** The board: the pin number [AVREF] of the Arduino core and the raw code
    the converter delivers on pin [p] at its [n]-th conversion. *)
Record Board := mkBoard {
  AVREF : Z;
  adc_code : Z -> nat -> Z
}.

(** What a method call can see and change: the board, the number of
    conversions made so far, the caller's parameter structure ([*pParam])
    and the object itself. *)
Record Machine := mkMachine {
  board : Board;
  conversions : nat;
  param : BatteryParams_t;
  lipo : LiPo
}.

Definition set_GateTime (v : Z) (s : LiPo) : LiPo :=
  mkLiPo (CellScaleDen s) (AdcChStart s) (AdcChCnt s) v (LastTick s)
         (SampleCnt s) (Samples s) (VRefAdc s) (Accu s) (VCell s).
Definition set_LastTick (v : Z) (s : LiPo) : LiPo :=
  mkLiPo (CellScaleDen s) (AdcChStart s) (AdcChCnt s) (GateTime s) v
         (SampleCnt s) (Samples s) (VRefAdc s) (Accu s) (VCell s).
Definition set_SampleCnt (v : Z) (s : LiPo) : LiPo :=
  mkLiPo (CellScaleDen s) (AdcChStart s) (AdcChCnt s) (GateTime s) (LastTick s)
         v (Samples s) (VRefAdc s) (Accu s) (VCell s).
Definition set_Samples (v : Z) (s : LiPo) : LiPo :=
  mkLiPo (CellScaleDen s) (AdcChStart s) (AdcChCnt s) (GateTime s) (LastTick s)
         (SampleCnt s) v (VRefAdc s) (Accu s) (VCell s).
Definition set_VRefAdc (v : Z) (s : LiPo) : LiPo :=
  mkLiPo (CellScaleDen s) (AdcChStart s) (AdcChCnt s) (GateTime s) (LastTick s)
         (SampleCnt s) (Samples s) v (Accu s) (VCell s).
Definition set_Accu (v : list Z) (s : LiPo) : LiPo :=
  mkLiPo (CellScaleDen s) (AdcChStart s) (AdcChCnt s) (GateTime s) (LastTick s)
         (SampleCnt s) (Samples s) (VRefAdc s) v (VCell s).
Definition set_VCell (v : list Z) (s : LiPo) : LiPo :=
  mkLiPo (CellScaleDen s) (AdcChStart s) (AdcChCnt s) (GateTime s) (LastTick s)
         (SampleCnt s) (Samples s) (VRefAdc s) (Accu s) v.

Definition with_lipo (f : LiPo -> LiPo) (m : Machine) : Machine :=
  mkMachine (board m) (conversions m) (param m) (f (lipo m)).
Definition with_param (p : BatteryParams_t) (m : Machine) : Machine :=
  mkMachine (board m) (conversions m) p (lipo m).
Definition with_conversions (n : nat) (m : Machine) : Machine :=
  mkMachine (board m) n (param m) (lipo m).

(** ** Outcomes *)

(** The four divisions of [lipo.cpp], by the statement they stand in. *)
Inductive site :=
| vref_division       (* updateVref: ... / analogRead(AVREF) *)
| update_average      (* update:     Accu[i] /= SampleCnt *)
| calibrate_average   (* calibrate:  Accu[cell] /= SampleCnt *)
| calibrate_scale.    (* calibrate:  voltage / Accu[cell] *)

Inductive fault :=
| OutOfBounds
| DivByZero (at_site : site).

(** A call returns ([Done]), has undefined behaviour ([Undefined]), or is
    still inside the busy loop of [calibrate] when the observed clock trace
    ends ([Blocked]). *)
Inductive result (A : Type) :=
| Done (a : A)
| Undefined (f : fault)
| Blocked.
Arguments Done {A} a.
Arguments Undefined {A} f.
Arguments Blocked {A}.

Definition rbind {A B} (c : result A) (k : A -> result B) : result B :=
  match c with
  | Done a => k a
  | Undefined f => Undefined f
  | Blocked => Blocked
  end.

Notation "'let?' x ':=' c 'in' k" := (rbind c (fun x => k))
  (at level 10, x name, c at level 100, k at level 200).

(** Array element read: [a[i]]. *)
Definition index (a : list Z) (i : Z) : result Z :=
  if (0 <=? i) && (i <? Z.of_nat (length a)) then
    match a !! Z.to_nat i with
    | Some v => Done v
    | None => Undefined OutOfBounds
    end
  else Undefined OutOfBounds.

(** Array element write: [a[i] = v]. *)
Definition assign (a : list Z) (i v : Z) : result (list Z) :=
  if (0 <=? i) && (i <? Z.of_nat (length a)) then Done (<[Z.to_nat i := v]> a)
  else Undefined OutOfBounds.

(** Unsigned division, undefined for a zero divisor. *)
Definition udiv (s : site) (a b : Z) : result Z :=
  if b =? 0 then Undefined (DivByZero s) else Done (a / b).

(** ** The monad of the methods that change the object *)

Definition M (A : Type) : Type := Machine -> result (A * Machine).

Definition ret {A} (a : A) : M A := fun m => Done (a, m).
Definition bind {A B} (c : M A) (k : A -> M B) : M B :=
  fun m => match c m with
           | Done (a, m') => k a m'
           | Undefined f => Undefined f
           | Blocked => Blocked
           end.
Definition lift {A} (r : result A) : M A :=
  fun m => match r with
           | Done a => Done (a, m)
           | Undefined f => Undefined f
           | Blocked => Blocked
           end.
Definition gets {A} (f : LiPo -> A) : M A := fun m => Done (f (lipo m), m).
Definition modify (f : LiPo -> LiPo) : M unit :=
  fun m => Done (tt, with_lipo f m).

Notation "'let*' x ':=' c 'in' k" := (bind c (fun x => k))
  (at level 10, x name, c at level 100, k at level 200).
Notation "c1 ;;; c2" := (bind c1 (fun _ => c2))
  (at level 100, c2 at level 200, right associativity).

Definition load_Accu (i : Z) : M Z :=
  let* a := gets Accu in lift (index a i).
Definition store_Accu (i v : Z) : M unit :=
  let* a := gets Accu in
  let* a' := lift (assign a i v) in
  modify (set_Accu a').
Definition load_VCell (i : Z) : M Z :=
  let* a := gets VCell in lift (index a i).
Definition store_VCell (i v : Z) : M unit :=
  let* a := gets VCell in
  let* a' := lift (assign a i v) in
  modify (set_VCell a').
(** [pParam->CellScale[i]], read and written in the caller's structure. *)
Definition load_CellScale (i : Z) : M Z :=
  fun m => lift (index (CellScale (param m)) i) m.
Definition store_CellScale (i v : Z) : M unit :=
  fun m => match assign (CellScale (param m)) i v with
           | Done a' => Done (tt, with_param (mkParams a') m)
           | Undefined f => Undefined f
           | Blocked => Blocked
           end.

(** [analogRead(pin)]: one conversion, delivered as a [uint32_t]. *)
Definition analogRead (pin : Z) : M Z :=
  fun m => Done (u32 (adc_code (board m) pin (conversions m)),
                 with_conversions (S (conversions m)) m).

Fixpoint for_each (idx : list Z) (body : Z -> M unit) : M unit :=
  match idx with
  | [] => ret tt
  | i :: rest => body i ;;; for_each rest body
  end.

(** ** The methods of [lipo.cpp] *)

(** [LiPo::LiPo(BatteryParams_t *_pParam)] *)
Definition LiPo_new : LiPo :=
  {| CellScaleDen := LIPO_DENOMINATOR;
     AdcChStart := LIPO_ADCCHANNEL_0;
     AdcChCnt := LIPO_ADCCHANNELS;
     GateTime := LIPO_DEFAULT_GATETIME;
     LastTick := 0;
     SampleCnt := 0;
     Samples := 0;
     VRefAdc := 0;
     Accu := replicate (Z.to_nat LIPO_ADCCHANNELS) 0;
     VCell := replicate (Z.to_nat LIPO_ADCCHANNELS) 0 |}.

Definition boot (b : Board) (p : BatteryParams_t) : Machine :=
  mkMachine b 0%nat p LiPo_new.

(** [void LiPo::setGateTime(uint16_t millis)] *)
Definition setGateTime (millis : Z) : M unit :=
  modify (set_GateTime millis).

(** [void LiPo::updateVref(void)] *)
Definition updateVref : M unit :=
  fun m =>
    (let* raw := analogRead (AVREF (board m)) in
     let* v := lift (udiv vref_division
                          (u32 (LIPO_VREFINT * LL_ADC_DIGITAL_SCALE)) raw) in
     modify (set_VRefAdc v)) m.

(** The body of the loop of [update], for channel [i]. *)
Definition update_channel (i : Z) : M unit :=
  let* n := gets SampleCnt in
  let* a := load_Accu i in
  let* q := lift (udiv update_average a n) in
  store_Accu i q ;;;
  let* vref := gets VRefAdc in
  let* avg := load_Accu i in
  store_VCell i (LL_ADC_CALC_DATA_TO_VOLTAGE vref avg) ;;;
  let* v := load_VCell i in
  let* k := load_CellScale i in
  let* den := gets CellScaleDen in
  store_VCell i (Z.shiftr (u32 (v * k)) den) ;;;
  store_Accu i 0.

(** [void LiPo::update(void)] *)
Definition update : M unit :=
  updateVref ;;;
  let* cnt := gets AdcChCnt in
  for_each (seqZ 0 cnt) update_channel ;;;
  let* n := gets SampleCnt in
  modify (set_Samples n) ;;;
  modify (set_SampleCnt 0).

(** The body of the sampling loop of [task], for channel [i]. *)
Definition sample_channel (i : Z) : M unit :=
  let* start := gets AdcChStart in
  let* r := analogRead (start + i) in
  let* a := load_Accu i in
  store_Accu i (u32 (a + r)).

(** The part of [task] before the gate test: count and sample. *)
Definition task_sample : M unit :=
  let* n := gets SampleCnt in
  modify (set_SampleCnt (u32 (n + 1))) ;;;
  let* cnt := gets AdcChCnt in
  for_each (seqZ 0 cnt) sample_channel.

(** The gate test of [task]: [millis - LastTick >= GateTime] on
    [uint32_t]. *)
Definition gate_elapsed (millis : Z) (s : LiPo) : bool :=
  GateTime s <=? u32 (millis - LastTick s).

(** [bool LiPo::task(uint32_t millis)] *)
Definition task (millis : Z) : M bool :=
  task_sample ;;;
  let* elapsed := gets (gate_elapsed millis) in
  if elapsed then
    modify (set_LastTick millis) ;;;
    update ;;;
    ret true
  else ret false.

(** [uint32_t LiPo::getCell(uint8_t cell, bool abs)] *)
Definition getCell (s : LiPo) (cell : Z) (abs : bool) : result Z :=
  if (cell =? 0) || abs then index (VCell s) cell
  else if AdcChCnt s <=? cell then Done 0
  else
    let? hi := index (VCell s) cell in
    let? lo := index (VCell s) (cell - 1) in
    if lo <=? hi then Done (u32 (hi - lo)) else Done 0.

(** The loop of [getNumCells] over the remaining indices [idx], with the
    locals [cells] and [done]. *)
Fixpoint getNumCells_loop (s : LiPo) (idx : list Z) (cells : Z) (done : bool)
  : result Z :=
  match idx with
  | [] => Done cells
  | i :: rest =>
      let? v := getCell s i false in
      if LIPO_VCELL_MIN <=? v then
        if negb done then getNumCells_loop s rest (i8 (cells + 1)) done
        else Done (-1)
      else getNumCells_loop s rest cells true
  end.

(** [int8_t LiPo::getNumCells(void)] *)
Definition getNumCells (s : LiPo) : result Z :=
  getNumCells_loop s (seqZ 0 (AdcChCnt s)) 0 false.

(** The loop of [getMinCell] over the remaining indices, with the local
    [volt]. *)
Fixpoint getMinCell_loop (s : LiPo) (idx : list Z) (volt : Z) : result Z :=
  match idx with
  | [] => Done volt
  | i :: rest =>
      let? cell := getCell s i false in
      if LIPO_VCELL_MIN <=? cell
      then getMinCell_loop s rest (Z.min volt cell)
      else getMinCell_loop s rest volt
  end.

(** [uint32_t LiPo::getMinCell(void)] *)
Definition getMinCell (s : LiPo) : result Z :=
  let? cells := getNumCells s in
  if 0 <? cells then getMinCell_loop s (seqZ 0 cells) UINT32_MAX
  else Done 0.

(** [uint16_t LiPo::getSamples(void)] *)
Definition getSamples (s : LiPo) : Z := Samples s mod 2 ^ 16.

(** [uint32_t LiPo::getVref(void)] *)
Definition getVref (s : LiPo) : Z := VRefAdc s.

(** The busy loop of [calibrate]:
    [while (millis() - LastTick <= GateTime) { ... }].  Each test takes the
    next value of the clock; the values left over are returned. *)
Fixpoint calibrate_loop (clock : list Z) (cell : Z) : M (list Z) :=
  match clock with
  | [] => fun _ => Blocked
  | now :: later =>
      let* last := gets LastTick in
      let* gate := gets GateTime in
      if u32 (now - last) <=? gate then
        let* start := gets AdcChStart in
        let* r := analogRead (start + cell) in
        let* a := load_Accu cell in
        store_Accu cell (u32 (a + r)) ;;;
        let* n := gets SampleCnt in
        modify (set_SampleCnt (u32 (n + 1))) ;;;
        calibrate_loop later cell
      else ret later
  end.

(** [millis()]: the next value of the clock. *)
Definition millis (clock : list Z) : M (Z * list Z) :=
  match clock with
  | [] => fun _ => Blocked
  | now :: later => ret (now, later)
  end.

(** [uint32_t LiPo::calibrate(uint8_t cell, uint32_t voltage)]; [clock] is
    the sequence of values its calls of [millis()] return.  The [printf]
    calls write to the console only and are left out. *)
Definition calibrate (clock : list Z) (cell voltage : Z) : M Z :=
  updateVref ;;;
  store_Accu cell 0 ;;;
  modify (set_SampleCnt 0) ;;;
  let* t0 := millis clock in
  modify (set_LastTick (fst t0)) ;;;
  let* clock1 := calibrate_loop (snd t0) cell in
  let* den := gets CellScaleDen in
  let voltage' := u32 (Z.shiftl voltage den) in
  let* n := gets SampleCnt in
  let* a := load_Accu cell in
  let* q := lift (udiv calibrate_average a n) in
  store_Accu cell q ;;;
  let* vref := gets VRefAdc in
  let* avg := load_Accu cell in
  store_Accu cell (LL_ADC_CALC_DATA_TO_VOLTAGE vref avg) ;;;
  let* mv := load_Accu cell in
  let* scale := lift (udiv calibrate_scale voltage' mv) in
  store_CellScale cell scale ;;;
  let* acc := gets Accu in
  modify (set_Accu (replicate (length acc) 0)) ;;;
  modify (set_SampleCnt 0) ;;;
  let* t1 := millis clock1 in
  modify (set_LastTick (fst t1)) ;;;
  ret 0.

(** ** Typing invariant

    The ranges of the C++ member types and the sizes of the three arrays.
    [CellScaleDen] and [AdcChCnt] are set by the constructor and never
    written again. *)

Record wf_lipo (s : LiPo) : Prop := mk_wf_lipo {
  wf_den : CellScaleDen s = LIPO_DENOMINATOR;
  wf_start : AdcChStart s = LIPO_ADCCHANNEL_0;
  wf_cnt : AdcChCnt s = LIPO_ADCCHANNELS;
  wf_gate : 0 <= GateTime s < 2 ^ 16;
  wf_last : is_u32 (LastTick s);
  wf_scnt : is_u32 (SampleCnt s);
  wf_smp : is_u32 (Samples s);
  wf_vref : is_u32 (VRefAdc s);
  wf_accu_len : Z.of_nat (length (Accu s)) = LIPO_ADCCHANNELS;
  wf_vcell_len : Z.of_nat (length (VCell s)) = LIPO_ADCCHANNELS;
  wf_accu : Forall is_u32 (Accu s);
  wf_vcell : Forall is_u32 (VCell s)
}.

Record wf_param (p : BatteryParams_t) : Prop := mk_wf_param {
  wf_scale_len : Z.of_nat (length (CellScale p)) = LIPO_ADCCHANNELS;
  wf_scale : Forall is_u32 (CellScale p)
}.

Definition wf (m : Machine) : Prop := wf_lipo (lipo m) /\ wf_param (param m).

(** [a[i]] as a total function, for statements about in-range elements. *)
Definition elt (a : list Z) (i : Z) : Z := nth (Z.to_nat i) a 0.

(** ** Quantities the statements speak about *)

(** The relative voltage of an in-range cell, as a number: what
    [getCell s i false] returns. *)
Definition cell_mv (s : LiPo) (i : Z) : Z :=
  if i =? 0 then elt (VCell s) 0
  else if elt (VCell s) (i - 1) <=? elt (VCell s) i
       then elt (VCell s) i - elt (VCell s) (i - 1) else 0.

(** A channel is a valid connected cell when its relative voltage reaches
    [LIPO_VCELL_MIN]: the test of [getNumCells] and [getMinCell]. *)
Definition valid_cell (s : LiPo) (i : Z) : bool :=
  match getCell s i false with
  | Done v => LIPO_VCELL_MIN <=? v
  | _ => false
  end.

(** A valid reading above a failed one. *)
Definition broken_chain (s : LiPo) : Prop :=
  exists j i, 0 <= j /\ j < i /\ i < AdcChCnt s /\
              valid_cell s j = false /\ valid_cell s i = true.

(** The raw code [updateVref] reads when it runs on [m]. *)
Definition vref_reading (m : Machine) : Z :=
  u32 (adc_code (board m) (AVREF (board m)) (conversions m)).

(** The reference voltage [updateVref] derives from the raw code [r]. *)
Definition vref_of (r : Z) : Z := u32 (LIPO_VREFINT * LL_ADC_DIGITAL_SCALE) / r.

(** The raw code the sampling loop reads for channel [i]. *)
Definition sample_of (m0 : Machine) (i : Z) : Z :=
  u32 (adc_code (board m0) (AdcChStart (lipo m0) + i)
                (conversions m0 + Z.to_nat i)%nat).

(** The machine after the channels below [j] have been sampled. *)
Definition sampled (m0 : Machine) (j : Z) (m : Machine) : Prop :=
  exists a,
    m = mkMachine (board m0) (conversions m0 + Z.to_nat j)%nat (param m0)
                  (set_Accu a (lipo m0)) /\
    length a = length (Accu (lipo m0)) /\
    Forall is_u32 a /\
    (forall i, 0 <= i < j ->
               elt a i = u32 (elt (Accu (lipo m0)) i + sample_of m0 i)) /\
    (forall i, j <= i < AdcChCnt (lipo m0) ->
               elt a i = elt (Accu (lipo m0)) i).

(** The millivolts [update] stores for channel [i], from the accumulator,
    the sample counter, the reference voltage and the scale factor found in
    [m]: the three statements of the loop body, on [uint32_t]. *)
Definition finalized_mv (m : Machine) (i : Z) : Z :=
  Z.shiftr
    (u32 (LL_ADC_CALC_DATA_TO_VOLTAGE
            (VRefAdc (lipo m))
            (elt (Accu (lipo m)) i / SampleCnt (lipo m))
          * elt (CellScale (param m)) i))
    (CellScaleDen (lipo m)).

(** The machine after the channels below [j] have been finalised. *)
Definition updated (m1 : Machine) (j : Z) (m : Machine) : Prop :=
  exists a c,
    m = mkMachine (board m1) (conversions m1) (param m1)
                  (set_Accu a (set_VCell c (lipo m1))) /\
    length a = length (Accu (lipo m1)) /\
    length c = length (VCell (lipo m1)) /\
    Forall is_u32 a /\
    Forall is_u32 c /\
    (forall i, 0 <= i < j -> elt a i = 0 /\ elt c i = finalized_mv m1 i) /\
    (forall i, j <= i < AdcChCnt (lipo m1) ->
               elt a i = elt (Accu (lipo m1)) i).

(** The machine on which the loop of [update] runs: [m] after
    [updateVref]. *)
Definition after_vref (m : Machine) : Machine :=
  mkMachine (board m) (S (conversions m)) (param m)
            (set_VRefAdc (vref_of (vref_reading m)) (lipo m)).

(** The machine on which the gate test of [task] runs: [m] with the call
    counted and the accumulators [a] the sampling loop leaves. *)
Definition after_sampling (m : Machine) (a : list Z) : Machine :=
  mkMachine (board m) (conversions m + Z.to_nat (AdcChCnt (lipo m)))%nat
            (param m)
            (set_Accu a (set_SampleCnt (u32 (SampleCnt (lipo m) + 1)) (lipo m))).

(** The raw code of the reference channel that a finalising [task] reads:
    the conversion after those of the sampling loop. *)
Definition task_vref_reading (m : Machine) : Z :=
  u32 (adc_code (board m) (AVREF (board m))
                (conversions m + Z.to_nat (AdcChCnt (lipo m)))%nat).

(** The sum of the raw codes of [k] conversions on [pin], from conversion
    number [from] on. *)
Fixpoint adc_sum (b : Board) (pin : Z) (from k : nat) : Z :=
  match k with
  | O => 0
  | S k' => u32 (adc_code b pin from) + adc_sum b pin (S from) k'
  end.

(** The loop test of [calibrate]: [millis() - LastTick <= GateTime]. *)
Definition within_gate (s : LiPo) (now : Z) : bool :=
  u32 (now - LastTick s) <=? GateTime s.

(** The averaged raw code [calibrate] obtains for [cell] when its loop body
    runs [k] times, starting on [m]: the sum of the [k] conversions that
    follow the one of [updateVref], on [uint32_t]. *)
Definition calib_raw (m : Machine) (cell : Z) (k : nat) : Z :=
  u32 (adc_sum (board m) (AdcChStart (lipo m) + cell) (S (conversions m)) k).

Definition calib_samples (k : nat) : Z := u32 (Z.of_nat k).

(** The measured voltage in mV: the average converted with the reference
    voltage just measured; no scale factor enters. *)
Definition calib_measured (m : Machine) (cell : Z) (k : nat) : Z :=
  LL_ADC_CALC_DATA_TO_VOLTAGE (vref_of (vref_reading m))
                              (calib_raw m cell k / calib_samples k).

(** The scale factor stored: [voltage << CellScaleDen] on [uint32_t],
    divided by the measured voltage. *)
Definition calib_scale (m : Machine) (cell voltage : Z) (k : nat) : Z :=
  u32 (Z.shiftl voltage (CellScaleDen (lipo m))) / calib_measured m cell k.

(** The machine a completed [calibrate] leaves; [t1] is the value of the
    last [millis()]. *)
Definition calibrated (m : Machine) (cell voltage t1 : Z) (k : nat) : Machine :=
  mkMachine (board m) (S (conversions m) + k)%nat
    (mkParams (<[Z.to_nat cell := calib_scale m cell voltage k]>
                 (CellScale (param m))))
    (set_LastTick t1
       (set_SampleCnt 0
          (set_Accu (replicate (length (Accu (lipo m))) 0)
             (set_VRefAdc (vref_of (vref_reading m)) (lipo m))))).

(** What [calibrate] does once its loop has run [k] times; [t1] is the
    value of the last [millis()], if the clock trace reaches that far. *)
Definition calibrate_outcome (m : Machine) (cell voltage : Z) (t1 : option Z)
                             (k : nat) : result (Z * Machine) :=
  if calib_samples k =? 0 then Undefined (DivByZero calibrate_average)
  else if calib_measured m cell k =? 0 then Undefined (DivByZero calibrate_scale)
  else match t1 with
       | Some t => Done (0, calibrated m cell voltage t k)
       | None => Blocked
       end.

(** The clock as [calibrate] sees it: [t0] when the loop starts, the values
    [pre] within the gate time, [tEnd] beyond it, then [t1]. *)
Definition gate_passes (s : LiPo) (t0 : Z) (pre : list Z) (tEnd : Z) : Prop :=
  Forall (fun t => u32 (t - t0) <= GateTime s) pre /\
  GateTime s < u32 (tEnd - t0).

(** ** Reachable machines *)

(** The machines a program can be in: after construction, and after any
    returning call of a method that changes the object.  The caller owns the
    parameter structure and may rewrite it between calls. *)
Inductive reachable : Machine -> Prop :=
| reach_boot b p :
    wf_param p -> reachable (boot b p)
| reach_param m p :
    reachable m -> wf_param p -> reachable (with_param p m)
| reach_setGateTime m g m' :
    reachable m -> 0 <= g < 2 ^ 16 ->
    setGateTime g m = Done (tt, m') -> reachable m'
| reach_task m t r m' :
    reachable m -> is_u32 t ->
    task t m = Done (r, m') -> reachable m'
| reach_calibrate m clock cell voltage r m' :
    reachable m -> Forall is_u32 clock ->
    calibrate clock cell voltage m = Done (r, m') -> reachable m'.

(** ** Machines used as concrete inputs *)

(** A board whose converter delivers the code 1 on every pin. *)
Definition demo_board : Board := mkBoard 17 (fun _ _ => 1).

(** A board whose cell channels read 0 (broken wiring) while the reference
    channel, pin 17, reads 1490. *)
Definition broken_board : Board :=
  mkBoard 17 (fun pin _ => if pin =? 17 then 1490 else 0).

Definition demo_params : BatteryParams_t :=
  mkParams [2048; 2048; 2048; 2048; 2048; 2048].

Definition demo_machine : Machine := boot demo_board demo_params.
Definition broken_machine : Machine := boot broken_board demo_params.

(** A well-formed 3-cell pack on a 6-channel monitor. *)
Definition pack3 : LiPo :=
  set_VCell [1000; 1900; 2800; 2800; 2800; 2800] LiPo_new.

(** ** Callers

    The library has no caller of its own; these are the two loops a user
    writes around it. *)

(** Polling at the times [ts], one call of [task] per entry; the results of
    the calls are collected. *)
Fixpoint poll (ts : list Z) : M (list bool) :=
  match ts with
  | [] => ret []
  | t :: later =>
      let* b := task t in
      let* bs := poll later in
      ret (b :: bs)
  end.

(** Adding up [getCell(i)] for the cells [0 .. n-1]. *)
Fixpoint pack_sum (s : LiPo) (n : nat) : result Z :=
  match n with
  | O => Done 0
  | S n' =>
      let? below := pack_sum s n' in
      let? v := getCell s (Z.of_nat n') false in
      Done (below + v)
  end.

(** The sum of the raw codes found on [pin] at the conversions [from],
    [from + stride], ... ([k] of them): what one channel contributes to its
    accumulator in [k] consecutive polls. *)
Fixpoint window_sum (b : Board) (pin : Z) (from stride k : nat) : Z :=
  match k with
  | O => 0
  | S k' => u32 (adc_code b pin from) + window_sum b pin (from + stride) stride k'
  end.

(** * Proofs *)

(** ** Basic facts *)

Lemma u32_range x : is_u32 (u32 x).
Proof. unfold is_u32, u32. apply Z.mod_pos_bound. lia. Qed.

Lemma u32_id x : is_u32 x -> u32 x = x.
Proof. unfold is_u32, u32. intros H. apply Z.mod_small. lia. Qed.

Lemma u32_add_l a b : u32 (u32 a + b) = u32 (a + b).
Proof. unfold u32. apply Zplus_mod_idemp_l. Qed.

Lemma index_in_range a i :
  0 <= i < Z.of_nat (length a) -> index a i = Done (elt a i).
Proof.
  intros H. unfold index, elt.
  assert (Hb : (0 <=? i) && (i <? Z.of_nat (length a)) = true)
    by (apply andb_true_iff; split; [apply Z.leb_le | apply Z.ltb_lt]; lia).
  rewrite Hb.
  destruct (a !! Z.to_nat i) as [v|] eqn:E.
  - f_equal. symmetry. apply nth_lookup_Some with (d := 0) in E. exact E.
  - apply lookup_ge_None in E. lia.
Qed.

Lemma index_out_of_range a i :
  Z.of_nat (length a) <= i -> index a i = Undefined OutOfBounds.
Proof.
  intros H. unfold index.
  assert (Hb : (i <? Z.of_nat (length a)) = false) by (apply Z.ltb_ge; lia).
  rewrite Hb, andb_false_r. reflexivity.
Qed.

Lemma assign_in_range a i v :
  0 <= i < Z.of_nat (length a) -> assign a i v = Done (<[Z.to_nat i := v]> a).
Proof.
  intros H. unfold assign.
  assert (Hb : (0 <=? i) && (i <? Z.of_nat (length a)) = true)
    by (apply andb_true_iff; split; [apply Z.leb_le | apply Z.ltb_lt]; lia).
  rewrite Hb. reflexivity.
Qed.

Lemma assign_out_of_range a i v :
  Z.of_nat (length a) <= i -> assign a i v = Undefined OutOfBounds.
Proof.
  intros H. unfold assign.
  assert (Hb : (i <? Z.of_nat (length a)) = false) by (apply Z.ltb_ge; lia).
  rewrite Hb, andb_false_r. reflexivity.
Qed.

Lemma elt_insert_eq a i v :
  0 <= i < Z.of_nat (length a) -> elt (<[Z.to_nat i := v]> a) i = v.
Proof.
  intros H. unfold elt. apply nth_lookup_Some.
  apply list_lookup_insert_eq. lia.
Qed.

Lemma elt_insert_ne a i j v :
  0 <= i -> 0 <= j -> i <> j -> elt (<[Z.to_nat i := v]> a) j = elt a j.
Proof.
  intros Hi Hj Hne. unfold elt.
  rewrite !nth_lookup. rewrite list_lookup_insert_ne by lia. reflexivity.
Qed.

Lemma elt_Forall (P : Z -> Prop) a i :
  Forall P a -> 0 <= i < Z.of_nat (length a) -> P (elt a i).
Proof.
  intros HF Hi. unfold elt.
  destruct (lookup_lt_is_Some_2 a (Z.to_nat i)) as [v Hv]; [lia|].
  rewrite (nth_lookup_Some _ _ 0 _ Hv).
  eapply Forall_lookup_1; eauto.
Qed.

Lemma Forall_insert_u32 a i v :
  Forall is_u32 a -> is_u32 v -> Forall is_u32 (<[i := v]> a).
Proof. intros Ha Hv. apply Forall_insert; assumption. Qed.

Lemma elt_replicate n v i :
  0 <= i < Z.of_nat n -> elt (replicate n v) i = v.
Proof.
  intros H. unfold elt. apply nth_lookup_Some.
  apply lookup_replicate_2. lia.
Qed.

(** ** Reading cell voltages: [getCell] *)

Section Accessors.
Variable s : LiPo.
Hypothesis Hwf : wf_lipo s.

Lemma cnt_is_len : AdcChCnt s = Z.of_nat (length (VCell s)).
Proof. rewrite (wf_cnt s Hwf), (wf_vcell_len s Hwf). reflexivity. Qed.

Lemma cnt_pos : 0 < AdcChCnt s.
Proof. rewrite (wf_cnt s Hwf). reflexivity. Qed.

Lemma VCell_u32 i : 0 <= i < AdcChCnt s -> is_u32 (elt (VCell s) i).
Proof.
  intros H. apply elt_Forall; [apply (wf_vcell s Hwf)|].
  rewrite <- cnt_is_len. exact H.
Qed.

Lemma getCell_abs i :
  0 <= i < AdcChCnt s -> getCell s i true = Done (elt (VCell s) i).
Proof.
  intros H. unfold getCell. rewrite orb_true_r.
  apply index_in_range. rewrite <- cnt_is_len. exact H.
Qed.

Lemma getCell_zero abs : getCell s 0 abs = Done (elt (VCell s) 0).
Proof.
  unfold getCell. simpl.
  apply index_in_range. rewrite <- cnt_is_len. pose proof cnt_pos. lia.
Qed.

Lemma getCell_rel i :
  0 < i < AdcChCnt s ->
  getCell s i false =
  Done (if elt (VCell s) (i - 1) <=? elt (VCell s) i
        then elt (VCell s) i - elt (VCell s) (i - 1) else 0).
Proof.
  intros H. unfold getCell.
  assert (E0 : (i =? 0) = false) by (apply Z.eqb_neq; lia).
  assert (E1 : (AdcChCnt s <=? i) = false) by (apply Z.leb_gt; lia).
  rewrite E0, E1. simpl.
  rewrite !index_in_range by (rewrite <- cnt_is_len; lia). simpl.
  destruct (elt (VCell s) (i - 1) <=? elt (VCell s) i) eqn:E; [|reflexivity].
  apply Z.leb_le in E. f_equal. apply u32_id.
  pose proof (VCell_u32 i ltac:(lia)) as Hi.
  pose proof (VCell_u32 (i - 1) ltac:(lia)) as Hl.
  unfold is_u32 in *. lia.
Qed.

Lemma getCell_beyond i : AdcChCnt s <= i -> getCell s i false = Done 0.
Proof.
  intros H. unfold getCell. pose proof cnt_pos.
  assert (E0 : (i =? 0) = false) by (apply Z.eqb_neq; lia).
  assert (E1 : (AdcChCnt s <=? i) = true) by (apply Z.leb_le; lia).
  rewrite E0, E1. reflexivity.
Qed.

Lemma getCell_abs_beyond i :
  AdcChCnt s <= i -> getCell s i true = Undefined OutOfBounds.
Proof.
  intros H. unfold getCell. rewrite orb_true_r.
  apply index_out_of_range. rewrite <- cnt_is_len. exact H.
Qed.

Lemma getCell_cell_mv i :
  0 <= i < AdcChCnt s -> getCell s i false = Done (cell_mv s i).
Proof.
  intros H. unfold cell_mv. destruct (i =? 0) eqn:E.
  - apply Z.eqb_eq in E. subst i. apply getCell_zero.
  - apply Z.eqb_neq in E. apply getCell_rel. lia.
Qed.

Lemma cell_mv_u32 i : 0 <= i < AdcChCnt s -> is_u32 (cell_mv s i).
Proof.
  intros H. unfold cell_mv. destruct (i =? 0) eqn:E.
  - apply VCell_u32. pose proof cnt_pos. lia.
  - apply Z.eqb_neq in E.
    pose proof (VCell_u32 i ltac:(lia)) as Hi.
    pose proof (VCell_u32 (i - 1) ltac:(lia)) as Hl.
    destruct (elt (VCell s) (i - 1) <=? elt (VCell s) i) eqn:E2;
      unfold is_u32 in *; [apply Z.leb_le in E2|]; lia.
Qed.

Lemma valid_cell_mv i :
  0 <= i < AdcChCnt s -> valid_cell s i = (LIPO_VCELL_MIN <=? cell_mv s i).
Proof. intros H. unfold valid_cell. rewrite getCell_cell_mv by exact H. reflexivity. Qed.

Lemma i8_small x : -128 <= x < 128 -> i8 x = x.
Proof. intros H. unfold i8. rewrite Z.mod_small by lia. lia. Qed.

(** The loop of [getNumCells], started at channel [k] with the locals
    [cells] and [done] as the earlier iterations left them. *)
Lemma getNumCells_loop_spec (len : nat) :
  forall k cells done,
    0 <= k -> k + Z.of_nat len = AdcChCnt s ->
    0 <= cells <= k ->
    (forall i, 0 <= i < cells -> valid_cell s i = true) ->
    (forall i, cells <= i < k -> valid_cell s i = false) ->
    (done = false -> cells = k) ->
    (done = true -> cells < k) ->
    exists n,
      getNumCells_loop s (seqZ k (Z.of_nat len)) cells done = Done n /\
      ((n = -1 /\ broken_chain s) \/
       (0 <= n <= AdcChCnt s /\
        (forall i, 0 <= i < n -> valid_cell s i = true) /\
        (forall i, n <= i < AdcChCnt s -> valid_cell s i = false))).
Proof.
  induction len as [|len IH]; intros k cells done Hk Hlen Hc Hv Hi Hd0 Hd1.
  - simpl. exists cells. split; [reflexivity|]. right.
    replace (AdcChCnt s) with k by lia. auto.
  - rewrite seqZ_cons by lia. simpl.
    replace (Z.pred (Z.of_nat (S len))) with (Z.of_nat len) by lia.
    assert (Hkr : 0 <= k < AdcChCnt s) by lia.
    rewrite (getCell_cell_mv k Hkr). simpl.
    pose proof (valid_cell_mv k Hkr) as Hvk.
    destruct (LIPO_VCELL_MIN <=? cell_mv s k) eqn:E.
    + destruct done; simpl.
      * exists (-1). split; [reflexivity|]. left. split; [reflexivity|].
        exists cells, k. specialize (Hd1 eq_refl).
        repeat split; try lia; [apply Hi; lia | exact Hvk].
      * specialize (Hd0 eq_refl). subst cells.
        assert (Hcnt : AdcChCnt s = 6) by apply (wf_cnt s Hwf).
        rewrite i8_small by lia.
        apply IH; try lia.
        intros i Hir. destruct (Z.eq_dec i k) as [->|]; [exact Hvk|].
        apply Hv. lia.
    + apply IH; try lia; try (intros; discriminate); try exact Hv.
      intros i Hir. destruct (Z.eq_dec i k) as [->|]; [exact Hvk|].
      apply Hi. lia.
Qed.

Lemma getNumCells_spec :
  exists n,
    getNumCells s = Done n /\
    ((n = -1 /\ broken_chain s) \/
     (0 <= n <= AdcChCnt s /\
      (forall i, 0 <= i < n -> valid_cell s i = true) /\
      (forall i, n <= i < AdcChCnt s -> valid_cell s i = false))).
Proof.
  unfold getNumCells. pose proof cnt_pos as Hp.
  pose proof (getNumCells_loop_spec (Z.to_nat (AdcChCnt s)) 0 0 false) as H.
  rewrite Z2Nat.id in H by lia.
  apply H; try lia; intros; lia.
Qed.

Lemma prefix_not_broken n :
  (forall i, 0 <= i < n -> valid_cell s i = true) ->
  (forall i, n <= i < AdcChCnt s -> valid_cell s i = false) ->
  ~ broken_chain s.
Proof.
  intros Hv Hi (j & i & Hj & Hji & Hic & Hfj & Hti).
  destruct (Z_lt_ge_dec i n) as [Hlt|Hge].
  - rewrite Hv in Hfj by lia. discriminate.
  - rewrite Hi in Hti by lia. discriminate.
Qed.

(** The loop of [getMinCell] over the channels [k .. n-1], all valid. *)
Lemma getMinCell_loop_spec (n : Z) (len : nat) :
  forall k volt,
    0 <= k -> k + Z.of_nat len = n -> n <= AdcChCnt s ->
    (forall i, 0 <= i < n -> valid_cell s i = true) ->
    exists r,
      getMinCell_loop s (seqZ k (Z.of_nat len)) volt = Done r /\
      r <= volt /\
      (forall i, k <= i < n -> r <= cell_mv s i) /\
      (r = volt \/ exists i, k <= i < n /\ r = cell_mv s i).
Proof.
  induction len as [|len IH]; intros k volt Hk Hlen Hn Hv.
  - simpl. exists volt. repeat split; [lia | intros; lia | now left].
  - rewrite seqZ_cons by lia. simpl.
    replace (Z.pred (Z.of_nat (S len))) with (Z.of_nat len) by lia.
    assert (Hkr : 0 <= k < AdcChCnt s) by lia.
    rewrite (getCell_cell_mv k Hkr). simpl.
    pose proof (Hv k ltac:(lia)) as Hvk.
    rewrite (valid_cell_mv k Hkr) in Hvk. rewrite Hvk.
    destruct (IH (Z.succ k) (Z.min volt (cell_mv s k)))
      as (r & Hr & Hle & Hall & Hex); try lia; [exact Hv|].
    exists r. split; [exact Hr|]. split; [lia|]. split.
    + intros i Hir. destruct (Z.eq_dec i k) as [->|]; [lia|].
      apply Hall. lia.
    + destruct Hex as [Hex|(i & Hir & Hex)].
      * destruct (Z.min_spec volt (cell_mv s k)) as [[_ Hm]|[_ Hm]].
        -- left. lia.
        -- right. exists k. split; [lia|]. lia.
      * right. exists i. split; [lia|exact Hex].
Qed.
End Accessors.

(** ** Running the monad *)

Lemma bind_run {A B} (c : M A) (k : A -> M B) m a m' :
  c m = Done (a, m') -> bind c k m = k a m'.
Proof. intros H. unfold bind. rewrite H. reflexivity. Qed.

Lemma bind_undefined {A B} (c : M A) (k : A -> M B) m f :
  c m = Undefined f -> bind c k m = Undefined f.
Proof. intros H. unfold bind. rewrite H. reflexivity. Qed.

Lemma bind_blocked {A B} (c : M A) (k : A -> M B) m :
  c m = Blocked -> bind c k m = Blocked.
Proof. intros H. unfold bind. rewrite H. reflexivity. Qed.

Lemma load_Accu_run i m :
  0 <= i < Z.of_nat (length (Accu (lipo m))) ->
  load_Accu i m = Done (elt (Accu (lipo m)) i, m).
Proof.
  intros H. unfold load_Accu, bind, gets, lift.
  rewrite index_in_range by exact H. reflexivity.
Qed.

Lemma store_Accu_run i v m :
  0 <= i < Z.of_nat (length (Accu (lipo m))) ->
  store_Accu i v m =
  Done (tt, with_lipo (set_Accu (<[Z.to_nat i := v]> (Accu (lipo m)))) m).
Proof.
  intros H. unfold store_Accu, bind, gets, lift, modify.
  rewrite assign_in_range by exact H. reflexivity.
Qed.

Lemma store_Accu_out i v m :
  Z.of_nat (length (Accu (lipo m))) <= i ->
  store_Accu i v m = Undefined OutOfBounds.
Proof.
  intros H. unfold store_Accu, bind, gets, lift, modify.
  rewrite assign_out_of_range by exact H. reflexivity.
Qed.

Lemma load_VCell_run i m :
  0 <= i < Z.of_nat (length (VCell (lipo m))) ->
  load_VCell i m = Done (elt (VCell (lipo m)) i, m).
Proof.
  intros H. unfold load_VCell, bind, gets, lift.
  rewrite index_in_range by exact H. reflexivity.
Qed.

Lemma store_VCell_run i v m :
  0 <= i < Z.of_nat (length (VCell (lipo m))) ->
  store_VCell i v m =
  Done (tt, with_lipo (set_VCell (<[Z.to_nat i := v]> (VCell (lipo m)))) m).
Proof.
  intros H. unfold store_VCell, bind, gets, lift, modify.
  rewrite assign_in_range by exact H. reflexivity.
Qed.

Lemma load_CellScale_run i m :
  0 <= i < Z.of_nat (length (CellScale (param m))) ->
  load_CellScale i m = Done (elt (CellScale (param m)) i, m).
Proof.
  intros H. unfold load_CellScale, lift.
  rewrite index_in_range by exact H. reflexivity.
Qed.

Lemma store_CellScale_run i v m :
  0 <= i < Z.of_nat (length (CellScale (param m))) ->
  store_CellScale i v m =
  Done (tt, with_param (mkParams (<[Z.to_nat i := v]> (CellScale (param m)))) m).
Proof.
  intros H. unfold store_CellScale.
  rewrite assign_in_range by exact H. reflexivity.
Qed.

Lemma updateVref_run m :
  vref_reading m <> 0 ->
  updateVref m =
  Done (tt, mkMachine (board m) (S (conversions m)) (param m)
                      (set_VRefAdc (vref_of (vref_reading m)) (lipo m))).
Proof.
  intros H. unfold updateVref, bind, analogRead, lift, udiv, modify.
  fold (vref_reading m). apply Z.eqb_neq in H. rewrite H. reflexivity.
Qed.

Lemma updateVref_zero m :
  vref_reading m = 0 -> updateVref m = Undefined (DivByZero vref_division).
Proof.
  intros H. unfold updateVref, bind, analogRead, lift, udiv, modify.
  fold (vref_reading m). rewrite H. reflexivity.
Qed.

Lemma vref_of_u32 r : is_u32 r -> is_u32 (vref_of r).
Proof.
  intros [H0 H1]. unfold vref_of, is_u32.
  change (u32 (LIPO_VREFINT * LL_ADC_DIGITAL_SCALE)) with 4914000.
  destruct (Z.eq_dec r 0) as [->|Hr].
  - rewrite Z.div_0_r. lia.
  - split; [apply Z.div_pos; lia|].
    apply Z.le_lt_trans with 4914000; [|lia].
    apply Z.div_le_upper_bound; nia.
Qed.

(** ** Preservation of the typing invariant by the setters *)

Lemma wf_set_GateTime v s :
  wf_lipo s -> 0 <= v < 2 ^ 16 -> wf_lipo (set_GateTime v s).
Proof. intros [] Hv. constructor; simpl; assumption. Qed.

Lemma wf_set_LastTick v s :
  wf_lipo s -> is_u32 v -> wf_lipo (set_LastTick v s).
Proof. intros [] Hv. constructor; simpl; assumption. Qed.

Lemma wf_set_SampleCnt v s :
  wf_lipo s -> is_u32 v -> wf_lipo (set_SampleCnt v s).
Proof. intros [] Hv. constructor; simpl; assumption. Qed.

Lemma wf_set_Samples v s :
  wf_lipo s -> is_u32 v -> wf_lipo (set_Samples v s).
Proof. intros [] Hv. constructor; simpl; assumption. Qed.

Lemma wf_set_VRefAdc v s :
  wf_lipo s -> is_u32 v -> wf_lipo (set_VRefAdc v s).
Proof. intros [] Hv. constructor; simpl; assumption. Qed.

Lemma wf_set_Accu a s :
  wf_lipo s -> length a = length (Accu s) -> Forall is_u32 a ->
  wf_lipo (set_Accu a s).
Proof. intros [] Hl Hv. constructor; simpl; try assumption. congruence. Qed.

Lemma wf_set_VCell a s :
  wf_lipo s -> length a = length (VCell s) -> Forall is_u32 a ->
  wf_lipo (set_VCell a s).
Proof. intros [] Hl Hv. constructor; simpl; try assumption. congruence. Qed.

Lemma wf_LiPo_new : wf_lipo LiPo_new.
Proof.
  constructor; simpl; try reflexivity; unfold is_u32; try lia.
  - vm_compute. split; [discriminate | reflexivity].
  - repeat constructor; lia.
  - repeat constructor; lia.
Qed.

(** ** Loops over the channels *)

Section ForEach.
Variable body : Z -> M unit.
Variable I : Z -> Machine -> Prop.
Variable hi : Z.
Hypothesis Hbody :
  forall i m, 0 <= i < hi -> I i m ->
              exists m', body i m = Done (tt, m') /\ I (i + 1) m'.

Lemma for_each_inv (len : nat) :
  forall lo m,
    0 <= lo -> lo + Z.of_nat len = hi -> I lo m ->
    exists m', for_each (seqZ lo (Z.of_nat len)) body m = Done (tt, m') /\
               I hi m'.
Proof.
  induction len as [|len IH]; intros lo m Hlo Hlen HI.
  - simpl. exists m. split; [reflexivity|].
    replace hi with lo by lia. exact HI.
  - rewrite seqZ_cons by lia. simpl.
    replace (Z.pred (Z.of_nat (S len))) with (Z.of_nat len) by lia.
    destruct (Hbody lo m ltac:(lia) HI) as (m1 & Hrun & HI1).
    rewrite (bind_run _ _ _ _ _ Hrun).
    apply IH; [lia | lia |].
    replace (Z.succ lo) with (lo + 1) by lia. exact HI1.
Qed.

Lemma for_each_range m :
  0 <= hi -> I 0 m ->
  exists m', for_each (seqZ 0 hi) body m = Done (tt, m') /\ I hi m'.
Proof.
  intros Hhi HI.
  pose proof (for_each_inv (Z.to_nat hi) 0 m) as H.
  rewrite Z2Nat.id in H by lia. apply H; [lia | lia | exact HI].
Qed.
End ForEach.

Arguments index : simpl never.
Arguments assign : simpl never.
Arguments u32 : simpl never.
Arguments elt : simpl never.
Arguments udiv : simpl never.
Arguments LL_ADC_CALC_DATA_TO_VOLTAGE : simpl never.

(** Projections out of freshly built records, and nothing else. *)
Ltac msimpl :=
  cbn [board conversions param lipo CellScale
       CellScaleDen AdcChStart AdcChCnt GateTime LastTick SampleCnt Samples
       VRefAdc Accu VCell
       with_lipo with_param with_conversions
       set_GateTime set_LastTick set_SampleCnt set_Samples set_VRefAdc
       set_Accu set_VCell fst snd].

Ltac run_with H := rewrite (bind_run _ _ _ _ _ H); msimpl.

(** ** The sampling part of [task] *)

Section TaskSample.
Variable m0 : Machine.
Hypothesis Hwf : wf m0.

Lemma sample_channel_step i m :
  0 <= i < AdcChCnt (lipo m0) -> sampled m0 i m ->
  exists m', sample_channel i m = Done (tt, m') /\ sampled m0 (i + 1) m'.
Proof.
  intros Hi (a & -> & Hlen & Ha & Hlo & Hhi).
  destruct Hwf as [Hl Hp].
  assert (Hr : 0 <= i < Z.of_nat (length a)).
  { rewrite Hlen, (wf_accu_len _ Hl), <- (wf_cnt _ Hl). exact Hi. }
  unfold sample_channel, bind, gets, analogRead. simpl.
  rewrite load_Accu_run by exact Hr. simpl.
  rewrite store_Accu_run by exact Hr. simpl.
  eexists. split; [reflexivity|].
  exists (<[Z.to_nat i := u32 (elt a i + sample_of m0 i)]> a).
  split; [|split; [|split; [|split]]].
  - unfold with_lipo, with_conversions, set_Accu, sample_of. simpl.
    f_equal. lia.
  - rewrite length_insert. exact Hlen.
  - apply Forall_insert_u32; [exact Ha | apply u32_range].
  - intros k Hk. destruct (Z.eq_dec k i) as [->|Hne].
    + rewrite elt_insert_eq by exact Hr. rewrite Hhi by lia. reflexivity.
    + rewrite elt_insert_ne by lia. apply Hlo. lia.
  - intros k Hk. rewrite elt_insert_ne by lia. apply Hhi. lia.
Qed.

Lemma sampled_start : sampled m0 0 m0.
Proof.
  exists (Accu (lipo m0)). split; [|split; [|split; [|split]]].
  - destruct m0 as [b n p []]. simpl. unfold set_Accu. simpl.
    f_equal. lia.
  - reflexivity.
  - apply (wf_accu _ (proj1 Hwf)).
  - intros; lia.
  - reflexivity.
Qed.

Lemma sampling_loop :
  exists m',
    for_each (seqZ 0 (AdcChCnt (lipo m0))) sample_channel m0 = Done (tt, m') /\
    sampled m0 (AdcChCnt (lipo m0)) m'.
Proof.
  apply for_each_range.
  - intros i m Hi Hs. apply sample_channel_step; assumption.
  - rewrite (wf_cnt _ (proj1 Hwf)). discriminate.
  - apply sampled_start.
Qed.
End TaskSample.

(** [task_sample] counts the call and adds one fresh raw code to every
    accumulator. *)
Lemma task_sample_spec m :
  wf m ->
  exists a,
    task_sample m =
    Done (tt, mkMachine (board m)
                        (conversions m + Z.to_nat (AdcChCnt (lipo m)))%nat
                        (param m)
                        (set_Accu a (set_SampleCnt (u32 (SampleCnt (lipo m) + 1))
                                                   (lipo m)))) /\
    length a = length (Accu (lipo m)) /\
    Forall is_u32 a /\
    (forall i, 0 <= i < AdcChCnt (lipo m) ->
               elt a i = u32 (elt (Accu (lipo m)) i + sample_of m i)).
Proof.
  intros Hwf.
  set (m0 := with_lipo (set_SampleCnt (u32 (SampleCnt (lipo m) + 1))) m).
  assert (Hwf0 : wf m0).
  { destruct Hwf as [Hl Hp]. split; [|exact Hp].
    apply wf_set_SampleCnt; [exact Hl | apply u32_range]. }
  destruct (sampling_loop m0 Hwf0) as (m' & Hrun & a & -> & Hlen & Ha & Hlo & _).
  exists a. split; [|split; [|split]].
  - unfold task_sample, bind, gets, modify. simpl. fold m0.
    exact Hrun.
  - exact Hlen.
  - exact Ha.
  - exact Hlo.
Qed.

(** ** The window finalisation: [update] *)

Lemma udiv_nonzero s a b : b <> 0 -> udiv s a b = Done (a / b).
Proof. intros H. unfold udiv. apply Z.eqb_neq in H. rewrite H. reflexivity. Qed.

Lemma udiv_zero s a : udiv s a 0 = Undefined (DivByZero s).
Proof. reflexivity. Qed.

Lemma shiftr_u32 x n : 0 <= n -> is_u32 (Z.shiftr (u32 x) n).
Proof.
  intros Hn. pose proof (u32_range x) as [H0 H1]. unfold is_u32.
  rewrite Z.shiftr_div_pow2 by exact Hn.
  assert (0 < 2 ^ n) by (apply Z.pow_pos_nonneg; lia).
  split; [apply Z.div_pos; lia|].
  apply Z.le_lt_trans with (u32 x); [|exact H1].
  apply Z.div_le_upper_bound; nia.
Qed.

Section UpdateLoop.
Variable m1 : Machine.
Hypothesis Hwf : wf m1.
Hypothesis Hcnt : SampleCnt (lipo m1) <> 0.

Lemma update_channel_step i m :
  0 <= i < AdcChCnt (lipo m1) -> updated m1 i m ->
  exists m', update_channel i m = Done (tt, m') /\ updated m1 (i + 1) m'.
Proof.
  intros Hi (a & c & -> & Hla & Hlc & Ha & Hc & Hlo & Hhi).
  destruct Hwf as [Hl Hp].
  assert (Hra : 0 <= i < Z.of_nat (length a)).
  { rewrite Hla, (wf_accu_len _ Hl), <- (wf_cnt _ Hl). exact Hi. }
  assert (Hrc : 0 <= i < Z.of_nat (length c)).
  { rewrite Hlc, (wf_vcell_len _ Hl), <- (wf_cnt _ Hl). exact Hi. }
  assert (Hrs : 0 <= i < Z.of_nat (length (CellScale (param m1)))).
  { rewrite (wf_scale_len _ Hp), <- (wf_cnt _ Hl). exact Hi. }
  unfold update_channel, bind, gets. msimpl.
  rewrite load_Accu_run by exact Hra. msimpl.
  unfold lift at 1. rewrite udiv_nonzero by exact Hcnt.
  rewrite store_Accu_run by exact Hra. msimpl.
  rewrite load_Accu_run by (msimpl; rewrite length_insert; exact Hra). msimpl.
  rewrite store_VCell_run by exact Hrc. msimpl.
  rewrite load_VCell_run by (msimpl; rewrite length_insert; exact Hrc). msimpl.
  rewrite load_CellScale_run by exact Hrs. msimpl.
  rewrite store_VCell_run by (msimpl; rewrite length_insert; exact Hrc). msimpl.
  rewrite store_Accu_run by (msimpl; rewrite length_insert; exact Hra). msimpl.
  rewrite !elt_insert_eq by assumption.
  rewrite !list_insert_insert_eq.
  eexists. split; [reflexivity|].
  exists (<[Z.to_nat i := 0]> a),
         (<[Z.to_nat i :=
              Z.shiftr
                (u32 (LL_ADC_CALC_DATA_TO_VOLTAGE
                        (VRefAdc (lipo m1))
                        (elt a i / SampleCnt (lipo m1))
                      * elt (CellScale (param m1)) i))
                (CellScaleDen (lipo m1))]> c).
  split; [reflexivity|].
  split; [rewrite length_insert; exact Hla|].
  split; [rewrite length_insert; exact Hlc|].
  assert (Hden : 0 <= CellScaleDen (lipo m1))
    by (rewrite (wf_den _ Hl); discriminate).
  split; [apply Forall_insert_u32; [exact Ha | unfold is_u32; lia]|].
  split; [apply Forall_insert_u32; [exact Hc | apply shiftr_u32; exact Hden]|].
  split.
  - intros k Hk. destruct (Z.eq_dec k i) as [->|Hne].
    + rewrite !elt_insert_eq by assumption. split; [reflexivity|].
      unfold finalized_mv. rewrite Hhi by lia. reflexivity.
    + rewrite !elt_insert_ne by lia. apply Hlo. lia.
  - intros k Hk. rewrite elt_insert_ne by lia. apply Hhi. lia.
Qed.

Lemma updated_start : updated m1 0 m1.
Proof.
  exists (Accu (lipo m1)), (VCell (lipo m1)).
  destruct Hwf as [Hl Hp].
  split; [destruct m1 as [b n p []]; reflexivity|].
  split; [reflexivity|]. split; [reflexivity|].
  split; [apply (wf_accu _ Hl)|]. split; [apply (wf_vcell _ Hl)|].
  split; [intros; lia | reflexivity].
Qed.

Lemma update_loop :
  exists m',
    for_each (seqZ 0 (AdcChCnt (lipo m1))) update_channel m1 = Done (tt, m') /\
    updated m1 (AdcChCnt (lipo m1)) m'.
Proof.
  apply for_each_range.
  - intros i m Hi Hs. apply update_channel_step; assumption.
  - rewrite (wf_cnt _ (proj1 Hwf)). discriminate.
  - apply updated_start.
Qed.
End UpdateLoop.

Lemma wf_after_vref m : wf m -> wf (after_vref m).
Proof.
  intros [Hl Hp]. split; [|exact Hp]. simpl.
  apply wf_set_VRefAdc; [exact Hl|]. apply vref_of_u32. apply u32_range.
Qed.

Lemma update_spec m :
  wf m -> SampleCnt (lipo m) <> 0 -> vref_reading m <> 0 ->
  exists a c,
    update m =
    Done (tt, mkMachine (board m) (S (conversions m)) (param m)
                (set_SampleCnt 0
                   (set_Samples (SampleCnt (lipo m))
                      (set_Accu a
                         (set_VCell c
                            (set_VRefAdc (vref_of (vref_reading m))
                                         (lipo m))))))) /\
    length a = length (Accu (lipo m)) /\
    length c = length (VCell (lipo m)) /\
    Forall is_u32 a /\
    Forall is_u32 c /\
    (forall i, 0 <= i < AdcChCnt (lipo m) ->
               elt a i = 0 /\ elt c i = finalized_mv (after_vref m) i).
Proof.
  intros Hwf Hcnt Hv.
  destruct (update_loop (after_vref m) (wf_after_vref m Hwf) Hcnt)
    as (m' & Hrun & a & c & -> & Hla & Hlc & Ha & Hc & Hlo & _).
  exists a, c. split; [|split; [|split; [|split; [|split]]]]; try assumption.
  unfold update.
  run_with (updateVref_run m Hv).
  unfold bind at 1. unfold gets at 1.
  unfold after_vref in Hrun. simpl in Hrun.
  run_with Hrun. reflexivity.
Qed.

(** ** The periodic poll: [task] *)

Lemma wf_after_sampling m a :
  wf m -> length a = length (Accu (lipo m)) -> Forall is_u32 a ->
  wf (after_sampling m a).
Proof.
  intros [Hl Hp] Hlen Ha. split; [|exact Hp]. simpl.
  apply wf_set_Accu; [|exact Hlen|exact Ha].
  apply wf_set_SampleCnt; [exact Hl | apply u32_range].
Qed.

Lemma task_idle t m :
  wf m -> gate_elapsed t (lipo m) = false ->
  exists a,
    task t m = Done (false, after_sampling m a) /\
    length a = length (Accu (lipo m)) /\
    Forall is_u32 a.
Proof.
  intros Hwf Hgate.
  destruct (task_sample_spec m Hwf) as (a & Hrun & Hlen & Ha & _).
  exists a. split; [|split; assumption].
  unfold task. run_with Hrun.
  unfold bind, gets, gate_elapsed. msimpl.
  unfold gate_elapsed in Hgate. rewrite Hgate. reflexivity.
Qed.

Lemma counter_not_wrapped n : is_u32 n -> n <> UINT32_MAX -> u32 (n + 1) = n + 1.
Proof. unfold is_u32, UINT32_MAX. intros H Hn. apply u32_id. unfold is_u32. lia. Qed.

Lemma task_fire t m :
  wf m -> is_u32 t -> gate_elapsed t (lipo m) = true ->
  SampleCnt (lipo m) <> UINT32_MAX -> task_vref_reading m <> 0 ->
  exists m',
    task t m = Done (true, m') /\
    wf m' /\
    board m' = board m /\ param m' = param m /\
    conversions m' = S (conversions m + Z.to_nat (AdcChCnt (lipo m))) /\
    GateTime (lipo m') = GateTime (lipo m) /\
    LastTick (lipo m') = t /\
    Samples (lipo m') = SampleCnt (lipo m) + 1 /\
    SampleCnt (lipo m') = 0.
Proof.
  intros Hwf Ht Hgate Hmax Hv.
  destruct (task_sample_spec m Hwf) as (a & Hrun & Hlen & Ha & _).
  pose proof (wf_after_sampling m a Hwf Hlen Ha) as Hwf1.
  fold (after_sampling m a) in Hrun.
  set (m2 := with_lipo (set_LastTick t) (after_sampling m a)).
  assert (Hwf2 : wf m2).
  { destruct Hwf1 as [Hl Hp]. split; [|exact Hp].
    apply wf_set_LastTick; assumption. }
  pose proof (counter_not_wrapped _ (wf_scnt _ (proj1 Hwf)) Hmax) as Hc.
  assert (Hcnt2 : SampleCnt (lipo m2) <> 0).
  { simpl. rewrite Hc. pose proof (wf_scnt _ (proj1 Hwf)) as [? ?]. lia. }
  destruct (update_spec m2 Hwf2 Hcnt2 Hv)
    as (a' & c' & Hupd & Hla & Hlc & Ha' & Hc' & _).
  eexists. split.
  - unfold task. run_with Hrun.
    unfold bind at 1. unfold gets at 1.
    change (gate_elapsed t (lipo (after_sampling m a)))
      with (gate_elapsed t (lipo m)).
    rewrite Hgate.
    unfold bind at 1. unfold modify at 1. fold m2.
    run_with Hupd. reflexivity.
  - destruct Hwf2 as [Hl2 Hp2]. simpl in Hla, Hlc.
    split; [|simpl; rewrite Hc; repeat split; reflexivity].
    split; [|exact Hp2]. simpl.
    apply wf_set_SampleCnt; [|unfold is_u32; lia].
    apply wf_set_Samples; [|apply u32_range].
    apply wf_set_Accu; [|exact Hla|exact Ha'].
    apply wf_set_VCell; [|exact Hlc|exact Hc'].
    apply wf_set_VRefAdc; [exact Hl2|].
    apply vref_of_u32. apply u32_range.
Qed.

(** ** The calibration: [calibrate] *)

Lemma gets_run {A} (f : LiPo -> A) m : gets f m = Done (f (lipo m), m).
Proof. reflexivity. Qed.

Lemma modify_run f m : modify f m = Done (tt, with_lipo f m).
Proof. reflexivity. Qed.

Lemma analogRead_run pin m :
  analogRead pin m =
  Done (u32 (adc_code (board m) pin (conversions m)),
        with_conversions (S (conversions m)) m).
Proof. reflexivity. Qed.

Lemma lift_run {A} (r : result A) a m : r = Done a -> lift r m = Done (a, m).
Proof. intros ->. reflexivity. Qed.

(** One step of a [bind] chain whose first command returns. *)
Ltac run tac := (erewrite bind_run; [ | solve [tac] ]); msimpl.
Ltac run_in H tac := erewrite bind_run in H; [ | solve [tac] ].

Lemma calibrate_loop_run cell tEnd rest (pre : list Z) :
  forall m,
    wf m ->
    0 <= cell < AdcChCnt (lipo m) ->
    Forall (fun t => within_gate (lipo m) t = true) pre ->
    within_gate (lipo m) tEnd = false ->
    exists a,
      calibrate_loop (pre ++ tEnd :: rest) cell m =
      Done (rest,
            mkMachine (board m) (conversions m + length pre)%nat (param m)
              (set_SampleCnt (u32 (SampleCnt (lipo m) + Z.of_nat (length pre)))
                 (set_Accu a (lipo m)))) /\
      length a = length (Accu (lipo m)) /\
      Forall is_u32 a /\
      elt a cell =
      u32 (elt (Accu (lipo m)) cell
           + adc_sum (board m) (AdcChStart (lipo m) + cell)
                     (conversions m) (length pre)).
Proof.
  induction pre as [|t pre IH]; intros m Hwf Hcell Hpre Hend.
  - exists (Accu (lipo m)). destruct Hwf as [Hl Hp].
    assert (Hr : 0 <= cell < Z.of_nat (length (Accu (lipo m))))
      by (rewrite (wf_accu_len _ Hl), <- (wf_cnt _ Hl); exact Hcell).
    split; [|split; [reflexivity|split; [apply (wf_accu _ Hl)|]]].
    + simpl. unfold bind, gets. unfold within_gate in Hend. rewrite Hend.
      unfold ret. do 2 f_equal.
      rewrite Z.add_0_r, (u32_id _ (wf_scnt _ Hl)).
      destruct m as [b n p []]. simpl. f_equal. lia.
    + simpl. rewrite Z.add_0_r. symmetry. apply u32_id.
      apply elt_Forall; [apply (wf_accu _ Hl) | exact Hr].
  - inversion Hpre as [|? ? Ht Hpre']; subst.
    pose proof Hwf as [Hl Hp].
    assert (Hr : 0 <= cell < Z.of_nat (length (Accu (lipo m))))
      by (rewrite (wf_accu_len _ Hl), <- (wf_cnt _ Hl); exact Hcell).
    set (r := u32 (adc_code (board m) (AdcChStart (lipo m) + cell)
                            (conversions m))).
    set (a1 := <[Z.to_nat cell := u32 (elt (Accu (lipo m)) cell + r)]>
                 (Accu (lipo m))).
    set (m1 := mkMachine (board m) (S (conversions m)) (param m)
                 (set_SampleCnt (u32 (SampleCnt (lipo m) + 1))
                                (set_Accu a1 (lipo m)))).
    assert (Hwf1 : wf m1).
    { split; [|exact Hp]. simpl.
      apply wf_set_SampleCnt; [|apply u32_range].
      apply wf_set_Accu; [exact Hl | apply length_insert |].
      apply Forall_insert_u32; [apply (wf_accu _ Hl) | apply u32_range]. }
    destruct (IH m1 Hwf1 Hcell Hpre' Hend) as (a & Hrun & Hlen & Ha & Helt).
    exists a. split; [|split; [|split]].
    + change ((t :: pre) ++ tEnd :: rest) with (t :: (pre ++ tEnd :: rest)).
      cbn [calibrate_loop].
      run ltac:(apply gets_run). run ltac:(apply gets_run).
      unfold within_gate in Ht. rewrite Ht.
      run ltac:(apply gets_run). run ltac:(apply analogRead_run).
      run ltac:(apply load_Accu_run; exact Hr).
      run ltac:(apply store_Accu_run; exact Hr).
      run ltac:(apply gets_run). run ltac:(apply modify_run).
      refine (eq_trans Hrun _). do 2 f_equal.
      simpl. f_equal; [lia|].
      unfold set_SampleCnt, set_Accu. simpl. f_equal.
      rewrite u32_add_l. f_equal. lia.
    + rewrite Hlen. apply length_insert.
    + exact Ha.
    + rewrite Helt. simpl. unfold a1. rewrite elt_insert_eq by exact Hr.
      fold r. rewrite u32_add_l. f_equal. lia.
Qed.

Lemma calibrate_run m cell voltage t0 pre tEnd rest :
  wf m ->
  0 <= cell < AdcChCnt (lipo m) ->
  vref_reading m <> 0 ->
  is_u32 t0 ->
  gate_passes (lipo m) t0 pre tEnd ->
  calibrate (t0 :: pre ++ tEnd :: rest) cell voltage m =
  calibrate_outcome m cell voltage (head rest) (length pre).
Proof.
  intros Hwf Hcell Hv Ht0 [Hpre Hend].
  pose proof Hwf as [Hl Hp].
  assert (Hr : 0 <= cell < Z.of_nat (length (Accu (lipo m))))
    by (rewrite (wf_accu_len _ Hl), <- (wf_cnt _ Hl); exact Hcell).
  assert (Hrs : 0 <= cell < Z.of_nat (length (CellScale (param m))))
    by (rewrite (wf_scale_len _ Hp), <- (wf_cnt _ Hl); exact Hcell).
  set (a0 := <[Z.to_nat cell := 0]> (Accu (lipo m))).
  set (ms := mkMachine (board m) (S (conversions m)) (param m)
               (set_LastTick t0
                  (set_SampleCnt 0
                     (set_Accu a0
                        (set_VRefAdc (vref_of (vref_reading m)) (lipo m)))))).
  assert (Hwfs : wf ms).
  { split; [|exact Hp]. simpl.
    apply wf_set_LastTick; [|exact Ht0].
    apply wf_set_SampleCnt; [|unfold is_u32; lia].
    apply wf_set_Accu; [|apply length_insert|].
    - apply wf_set_VRefAdc; [exact Hl|]. apply vref_of_u32, u32_range.
    - apply Forall_insert_u32; [apply (wf_accu _ Hl)|unfold is_u32; lia]. }
  destruct (calibrate_loop_run cell tEnd rest pre ms Hwfs Hcell)
    as (a & Hloop & Hlen & Ha & Helt).
  { eapply Forall_impl; [exact Hpre|]. intros t Ht. unfold within_gate. simpl.
    apply Z.leb_le. exact Ht. }
  { unfold within_gate. simpl. apply Z.leb_gt. exact Hend. }
  simpl in Hlen. unfold a0 in Hlen. rewrite length_insert in Hlen.
  assert (Hra : 0 <= cell < Z.of_nat (length a)) by (rewrite Hlen; exact Hr).
  assert (Hraw : elt a cell = calib_raw m cell (length pre)).
  { rewrite Helt. simpl. unfold a0. rewrite elt_insert_eq by exact Hr.
    reflexivity. }
  subst ms a0.
  unfold calibrate.
  run ltac:(apply updateVref_run; exact Hv).
  run ltac:(apply store_Accu_run; exact Hr).
  run ltac:(apply modify_run).
  run ltac:(reflexivity).
  run ltac:(apply modify_run).
  erewrite bind_run; [|exact Hloop]. msimpl.
  run ltac:(apply gets_run). run ltac:(apply gets_run).
  run ltac:(apply load_Accu_run; exact Hra).
  rewrite Hraw. rewrite Z.add_0_l. fold (calib_samples (length pre)).
  unfold calibrate_outcome.
  destruct (calib_samples (length pre) =? 0) eqn:Hk.
  { apply Z.eqb_eq in Hk. rewrite Hk.
    erewrite bind_undefined; [reflexivity|]. reflexivity. }
  apply Z.eqb_neq in Hk.
  run ltac:(apply lift_run, udiv_nonzero; exact Hk).
  run ltac:(apply store_Accu_run; exact Hra).
  run ltac:(apply gets_run).
  run ltac:(apply load_Accu_run; msimpl; rewrite length_insert; exact Hra).
  rewrite elt_insert_eq by exact Hra.
  run ltac:(apply store_Accu_run; msimpl; rewrite length_insert; exact Hra).
  run ltac:(apply load_Accu_run; msimpl; rewrite !length_insert; exact Hra).
  rewrite elt_insert_eq by (rewrite length_insert; exact Hra).
  fold (calib_measured m cell (length pre)).
  destruct (calib_measured m cell (length pre) =? 0) eqn:Hm.
  { apply Z.eqb_eq in Hm. rewrite Hm.
    erewrite bind_undefined; [reflexivity|]. reflexivity. }
  apply Z.eqb_neq in Hm.
  run ltac:(apply lift_run, udiv_nonzero; exact Hm).
  run ltac:(apply store_CellScale_run; exact Hrs).
  run ltac:(apply gets_run).
  run ltac:(apply modify_run).
  run ltac:(apply modify_run).
  destruct rest as [|t1 post]; [reflexivity|].
  run ltac:(reflexivity).
  run ltac:(apply modify_run).
  unfold ret, calibrated, calib_scale. cbn [head]. do 2 f_equal.
  rewrite !length_insert, Hlen. reflexivity.
Qed.

Lemma wf_calibrated m cell voltage t1 k :
  wf m -> is_u32 t1 -> calib_measured m cell k <> 0 ->
  wf (calibrated m cell voltage t1 k).
Proof.
  intros [Hl Hp] Ht1 Hm. split; simpl.
  - apply wf_set_LastTick; [|exact Ht1].
    apply wf_set_SampleCnt; [|unfold is_u32; lia].
    apply wf_set_Accu; [|apply length_replicate|].
    + apply wf_set_VRefAdc; [exact Hl|]. apply vref_of_u32, u32_range.
    + apply Forall_replicate. unfold is_u32. lia.
  - destruct Hp as [Hlen Hs]. constructor; simpl.
    + rewrite length_insert. exact Hlen.
    + apply Forall_insert_u32; [exact Hs|].
      unfold calib_scale.
      pose proof (u32_range (Z.shiftl voltage (CellScaleDen (lipo m)))) as [H0 H1].
      assert (Hpos : 0 < calib_measured m cell k).
      { unfold calib_measured, LL_ADC_CALC_DATA_TO_VOLTAGE in *.
        pose proof (u32_range (calib_raw m cell k / calib_samples k
                               * vref_of (vref_reading m))) as [? ?].
        assert (0 <= u32 (calib_raw m cell k / calib_samples k
                          * vref_of (vref_reading m)) / LL_ADC_DIGITAL_SCALE)
          by (apply Z.div_pos; [lia | reflexivity]).
        lia. }
      unfold is_u32. split; [apply Z.div_pos; lia|].
      apply Z.le_lt_trans with (u32 (Z.shiftl voltage (CellScaleDen (lipo m))));
        [|exact H1].
      apply Z.div_le_upper_bound; nia.
Qed.

(** A clock that never leaves the gate time keeps [calibrate] in its loop. *)
Lemma calibrate_loop_blocked cell (clock : list Z) :
  forall m,
    wf m ->
    0 <= cell < AdcChCnt (lipo m) ->
    Forall (fun t => within_gate (lipo m) t = true) clock ->
    calibrate_loop clock cell m = Blocked.
Proof.
  induction clock as [|t clock IH]; intros m Hwf Hcell Hall; [reflexivity|].
  inversion Hall as [|? ? Ht Hall']; subst.
  pose proof Hwf as [Hl Hp].
  assert (Hr : 0 <= cell < Z.of_nat (length (Accu (lipo m))))
    by (rewrite (wf_accu_len _ Hl), <- (wf_cnt _ Hl); exact Hcell).
  cbn [calibrate_loop].
  run ltac:(apply gets_run). run ltac:(apply gets_run).
  unfold within_gate in Ht. rewrite Ht.
  run ltac:(apply gets_run). run ltac:(apply analogRead_run).
  run ltac:(apply load_Accu_run; exact Hr).
  run ltac:(apply store_Accu_run; exact Hr).
  run ltac:(apply gets_run). run ltac:(apply modify_run).
  apply IH; [|exact Hcell|exact Hall'].
  split; [|exact Hp]. simpl.
  apply wf_set_SampleCnt; [|apply u32_range].
  apply wf_set_Accu; [exact Hl | apply length_insert |].
  apply Forall_insert_u32; [apply (wf_accu _ Hl) | apply u32_range].
Qed.

(** Every clock either leaves the gate time at some point or never does. *)
Lemma clock_split gate t0 (clock : list Z) :
  (exists pre tEnd rest,
      clock = pre ++ tEnd :: rest /\
      Forall (fun t => u32 (t - t0) <= gate) pre /\ gate < u32 (tEnd - t0)) \/
  Forall (fun t => u32 (t - t0) <= gate) clock.
Proof.
  induction clock as [|t clock IH]; [right; constructor|].
  destruct (Z_le_gt_dec (u32 (t - t0)) gate) as [Hle|Hgt].
  - destruct IH as [(pre & tEnd & rest & -> & Hpre & Hend)|Hall].
    + left. exists (t :: pre), tEnd, rest.
      split; [reflexivity|]. split; [constructor; assumption|exact Hend].
    + right. constructor; assumption.
  - left. exists [], t, clock. split; [reflexivity|].
    split; [constructor|lia].
Qed.

(** A call of [calibrate] that returns had an in-range cell, a nonzero
    reference reading and a clock that left the gate time. *)
Lemma calibrate_done_inv clock cell voltage m r m' :
  wf m -> Forall is_u32 clock ->
  calibrate clock cell voltage m = Done (r, m') ->
  exists t0 pre tEnd t1 post,
    clock = t0 :: pre ++ tEnd :: t1 :: post /\
    0 <= cell < AdcChCnt (lipo m) /\
    vref_reading m <> 0 /\
    gate_passes (lipo m) t0 pre tEnd /\
    calib_samples (length pre) <> 0 /\
    calib_measured m cell (length pre) <> 0 /\
    r = 0 /\ m' = calibrated m cell voltage t1 (length pre).
Proof.
  intros Hwf Hclock Hdone. pose proof Hwf as [Hl Hp].
  destruct (Z.eq_dec (vref_reading m) 0) as [Hz|Hv].
  { unfold calibrate in Hdone.
    rewrite (bind_undefined _ _ _ _ (updateVref_zero m Hz)) in Hdone.
    discriminate. }
  assert (Hcell : 0 <= cell < AdcChCnt (lipo m)).
  { destruct (Z_lt_ge_dec cell 0) as [Hneg|Hnn];
      [|destruct (Z_lt_ge_dec cell (AdcChCnt (lipo m))) as [Hlt|Hge]; [lia|]];
      exfalso; unfold calibrate in Hdone;
      rewrite (bind_run _ _ _ _ _ (updateVref_run m Hv)) in Hdone;
      unfold bind at 1, store_Accu, bind, gets, lift, assign in Hdone;
      cbn [lipo Accu set_VRefAdc] in Hdone.
    - assert (E : (0 <=? cell) = false) by (apply Z.leb_gt; exact Hneg).
      rewrite E in Hdone. discriminate.
    - assert (E : (cell <? Z.of_nat (length (Accu (lipo m)))) = false)
        by (apply Z.ltb_ge; rewrite (wf_accu_len _ Hl), <- (wf_cnt _ Hl); lia).
      rewrite E, andb_false_r in Hdone. discriminate. }
  assert (Hr : 0 <= cell < Z.of_nat (length (Accu (lipo m))))
    by (rewrite (wf_accu_len _ Hl), <- (wf_cnt _ Hl); exact Hcell).
  destruct clock as [|t0 clock].
  { exfalso. unfold calibrate in Hdone.
    run_in Hdone ltac:(apply updateVref_run; exact Hv).
    run_in Hdone ltac:(apply store_Accu_run; exact Hr).
    discriminate. }
  inversion Hclock as [|? ? Ht0 Hrest]; subst.
  destruct (clock_split (GateTime (lipo m)) t0 clock)
    as [(pre & tEnd & rest & -> & Hpre & Hend)|Hall].
  - rewrite (calibrate_run m cell voltage t0 pre tEnd rest Hwf Hcell Hv Ht0
               (conj Hpre Hend)) in Hdone.
    unfold calibrate_outcome in Hdone.
    destruct (calib_samples (length pre) =? 0) eqn:Hk; [discriminate|].
    destruct (calib_measured m cell (length pre) =? 0) eqn:Hm; [discriminate|].
    destruct rest as [|t1 post]; [discriminate|].
    cbn [head] in Hdone. injection Hdone as <- <-.
    exists t0, pre, tEnd, t1, post.
    apply Z.eqb_neq in Hk. apply Z.eqb_neq in Hm.
    repeat split; auto; lia.
  - exfalso. unfold calibrate in Hdone.
    run_in Hdone ltac:(apply updateVref_run; exact Hv).
    run_in Hdone ltac:(apply store_Accu_run; exact Hr).
    run_in Hdone ltac:(apply modify_run).
    run_in Hdone ltac:(reflexivity).
    run_in Hdone ltac:(apply modify_run).
    cbn [fst snd] in Hdone.
    rewrite bind_blocked in Hdone; [discriminate|].
    apply calibrate_loop_blocked.
    + split; [|exact Hp]. simpl.
      apply wf_set_LastTick; [|exact Ht0].
      apply wf_set_SampleCnt; [|unfold is_u32; lia].
      apply wf_set_Accu; [|apply length_insert|].
      * apply wf_set_VRefAdc; [exact Hl|]. apply vref_of_u32, u32_range.
      * apply Forall_insert_u32; [apply (wf_accu _ Hl)|unfold is_u32; lia].
    + exact Hcell.
    + eapply Forall_impl; [exact Hall|]. intros t Ht. unfold within_gate.
      simpl. apply Z.leb_le. exact Ht.
Qed.

(** ** Polls that do not return *)

Lemma update_zero_count m :
  wf m -> SampleCnt (lipo m) = 0 -> vref_reading m <> 0 ->
  update m = Undefined (DivByZero update_average).
Proof.
  intros [Hl Hp] Hz Hv. unfold update.
  run ltac:(apply updateVref_run; exact Hv).
  run ltac:(apply gets_run).
  rewrite (wf_cnt _ Hl).
  change (seqZ 0 LIPO_ADCCHANNELS) with [0; 1; 2; 3; 4; 5].
  cbn [for_each].
  apply bind_undefined. apply bind_undefined.
  unfold update_channel.
  run ltac:(apply gets_run).
  run ltac:(apply load_Accu_run; msimpl; rewrite (wf_accu_len _ Hl); split;
            [lia | reflexivity]).
  rewrite Hz. reflexivity.
Qed.

Lemma task_vref_zero t m :
  wf m -> gate_elapsed t (lipo m) = true -> task_vref_reading m = 0 ->
  task t m = Undefined (DivByZero vref_division).
Proof.
  intros Hwf Hgate Hz.
  destruct (task_sample_spec m Hwf) as (a & Hrun & _).
  fold (after_sampling m a) in Hrun.
  unfold task. run_with Hrun.
  unfold bind at 1. unfold gets at 1.
  change (gate_elapsed t (lipo (after_sampling m a)))
    with (gate_elapsed t (lipo m)).
  rewrite Hgate.
  run ltac:(apply modify_run).
  apply bind_undefined. unfold update. apply bind_undefined.
  apply updateVref_zero. exact Hz.
Qed.

Lemma task_wrapped t m :
  wf m -> is_u32 t -> gate_elapsed t (lipo m) = true ->
  SampleCnt (lipo m) = UINT32_MAX -> task_vref_reading m <> 0 ->
  task t m = Undefined (DivByZero update_average).
Proof.
  intros Hwf Ht Hgate Hmax Hv.
  destruct (task_sample_spec m Hwf) as (a & Hrun & Hlen & Ha & _).
  pose proof (wf_after_sampling m a Hwf Hlen Ha) as [Hl1 Hp1].
  fold (after_sampling m a) in Hrun.
  unfold task. run_with Hrun.
  unfold bind at 1. unfold gets at 1.
  change (gate_elapsed t (lipo (after_sampling m a)))
    with (gate_elapsed t (lipo m)).
  rewrite Hgate.
  run ltac:(apply modify_run).
  apply bind_undefined. apply update_zero_count.
  - split; [|exact Hp1]. apply wf_set_LastTick; assumption.
  - simpl. rewrite Hmax. reflexivity.
  - exact Hv.
Qed.

(** ** The typing invariant holds in every reachable machine *)

Lemma task_done_wf t m r m' :
  wf m -> is_u32 t -> task t m = Done (r, m') -> wf m'.
Proof.
  intros Hwf Ht Hdone.
  destruct (gate_elapsed t (lipo m)) eqn:Hgate.
  - destruct (Z.eq_dec (task_vref_reading m) 0) as [Hz|Hv].
    { rewrite (task_vref_zero t m Hwf Hgate Hz) in Hdone. discriminate. }
    destruct (Z.eq_dec (SampleCnt (lipo m)) UINT32_MAX) as [Hmax|Hmax].
    { rewrite (task_wrapped t m Hwf Ht Hgate Hmax Hv) in Hdone. discriminate. }
    destruct (task_fire t m Hwf Ht Hgate Hmax Hv) as (m2 & Hrun & Hwf2 & _).
    rewrite Hrun in Hdone. injection Hdone as _ <-. exact Hwf2.
  - destruct (task_idle t m Hwf Hgate) as (a & Hrun & Hlen & Ha).
    rewrite Hrun in Hdone. injection Hdone as _ <-.
    apply wf_after_sampling; assumption.
Qed.

Lemma reachable_wf m : reachable m -> wf m.
Proof.
  induction 1 as [b p Hp | m p _ IH Hp | m g m' _ IH Hg Hrun
                  | m t r m' _ IH Ht Hrun
                  | m clock cell voltage r m' _ IH Hclock Hrun].
  - split; [apply wf_LiPo_new | exact Hp].
  - destruct IH as [Hl _]. split; assumption.
  - injection Hrun as <-. destruct IH as [Hl Hp]. split; [|exact Hp].
    apply wf_set_GateTime; assumption.
  - eapply task_done_wf; eassumption.
  - destruct (calibrate_done_inv _ _ _ _ _ _ IH Hclock Hrun)
      as (t0 & pre & tEnd & t1 & post & -> & _ & _ & _ & _ & Hm & _ & ->).
    apply wf_calibrated; [exact IH | | exact Hm].
    inversion Hclock as [|? ? _ Hrest]; subst.
    apply Forall_app in Hrest as [_ Hrest].
    inversion Hrest as [|? ? _ Hrest']; subst.
    inversion Hrest' as [|? ? Ht1 _]; subst. exact Ht1.
Qed.

Lemma calibrate_out_of_range clock cell voltage m :
  wf m -> AdcChCnt (lipo m) <= cell -> vref_reading m <> 0 ->
  calibrate clock cell voltage m = Undefined OutOfBounds.
Proof.
  intros [Hl Hp] Hc Hv. unfold calibrate.
  run ltac:(apply updateVref_run; exact Hv).
  apply bind_undefined. apply store_Accu_out. msimpl.
  rewrite (wf_accu_len _ Hl), <- (wf_cnt _ Hl). exact Hc.
Qed.

(** Polling [k] more times at the time of the last tick, with a nonzero gate
    time, only counts: any counter value below [2^32] is reachable. *)
Lemma idle_polls k :
  0 <= k ->
  forall m,
    reachable m -> 0 < GateTime (lipo m) ->
    SampleCnt (lipo m) + k < 2 ^ 32 ->
    exists m',
      reachable m' /\ board m' = board m /\
      GateTime (lipo m') = GateTime (lipo m) /\
      LastTick (lipo m') = LastTick (lipo m) /\
      SampleCnt (lipo m') = SampleCnt (lipo m) + k.
Proof.
  intros Hk. pattern k. apply natlike_ind; [| |exact Hk]; clear k Hk.
  - intros m Hm _ _. exists m. rewrite Z.add_0_r. auto.
  - intros k Hk IH m Hm Hgate Hsum.
    destruct (IH m Hm Hgate ltac:(lia)) as (m1 & Hm1 & Hb & Hg & Hl & Hc).
    pose proof (reachable_wf m1 Hm1) as Hwf1.
    pose proof (wf_last _ (proj1 Hwf1)) as Hlast.
    pose proof (wf_scnt _ (proj1 (reachable_wf m Hm))) as [Hn0 _].
    assert (Hidle : gate_elapsed (LastTick (lipo m1)) (lipo m1) = false).
    { unfold gate_elapsed. rewrite Z.sub_diag. apply Z.leb_gt.
      rewrite Hg. exact Hgate. }
    destruct (task_idle _ m1 Hwf1 Hidle) as (a & Hrun & _).
    exists (after_sampling m1 a).
    split; [eapply reach_task; [exact Hm1 | exact Hlast | exact Hrun]|].
    simpl. repeat split; auto.
    rewrite Hc, u32_id by (unfold is_u32; lia). lia.
Qed.

(** ** The concrete machines are well typed *)

Lemma wf_demo_params : wf_param demo_params.
Proof.
  constructor; [reflexivity|].
  repeat constructor; unfold is_u32; simpl; lia.
Qed.

Lemma wf_demo_machine : wf demo_machine.
Proof. split; [apply wf_LiPo_new | apply wf_demo_params]. Qed.

Lemma wf_broken_machine : wf broken_machine.
Proof. split; [apply wf_LiPo_new | apply wf_demo_params]. Qed.

Lemma wf_pack3 : wf_lipo pack3.
Proof.
  apply wf_set_VCell; [apply wf_LiPo_new | reflexivity |].
  repeat constructor; unfold is_u32; simpl; lia.
Qed.

(** Closed comparisons, by evaluation. *)
Ltac by_eval :=
  vm_compute;
  first [ reflexivity | discriminate
        | split; first [reflexivity | discriminate] ].

(** * The claims *)

(** C1 (the code departs from the claim).  For a channel index at or beyond
    [AdcChCnt], [getCell] with [abs = false] returns 0, but with
    [abs = true] it reads [VCell] outside the array, and [calibrate] writes
    [Accu] outside the array: both are undefined behaviour, not a zero or
    no-op result. *)
Theorem out_of_range_cell m c clock voltage :
  wf m -> AdcChCnt (lipo m) <= c ->
  getCell (lipo m) c false = Done 0 /\
  getCell (lipo m) c true = Undefined OutOfBounds /\
  (vref_reading m <> 0 ->
   calibrate clock c voltage m = Undefined OutOfBounds).
Proof.
  intros Hwf Hc. pose proof Hwf as [Hl _].
  split; [apply getCell_beyond; assumption|].
  split; [apply getCell_abs_beyond; assumption|].
  intros Hv. apply calibrate_out_of_range; assumption.
Qed.

Lemma out_of_range_cell_witness :
  wf demo_machine /\ AdcChCnt (lipo demo_machine) <= 6 /\
  getCell (lipo demo_machine) 6 true = Undefined OutOfBounds /\
  calibrate [0; 100; 251; 252] 6 3700 demo_machine = Undefined OutOfBounds.
Proof.
  split; [exact wf_demo_machine|]. split; [by_eval|].
  destruct (out_of_range_cell demo_machine 6 [0; 100; 251; 252] 3700
              wf_demo_machine ltac:(by_eval)) as (_ & Habs & Hcal).
  split; [exact Habs|]. apply Hcal. vm_compute. discriminate.
Defined.

(** C2, as the claim states it, fails: with the cell channel reading 0 the
    measured voltage is 0 and [calibrate] divides by it. *)
Lemma calibrate_zero_measurement_divides :
  calib_measured broken_machine 0 3 = 0 /\
  calibrate [0; 100; 200; 250; 251; 252] 0 3700 broken_machine =
  Undefined (DivByZero calibrate_scale).
Proof. split; vm_compute; reflexivity. Qed.

(** C2 (amended).  [calibrate] has no test of the measured voltage: when the
    measurement is zero, the statement [voltage / Accu[cell]] is executed
    with a zero divisor, which is undefined behaviour; no failure is
    detected or reported. *)
Theorem calibrate_zero_measurement m cell voltage t0 pre tEnd rest :
  wf m ->
  0 <= cell < AdcChCnt (lipo m) ->
  vref_reading m <> 0 ->
  is_u32 t0 ->
  gate_passes (lipo m) t0 pre tEnd ->
  calib_samples (length pre) <> 0 ->
  calib_measured m cell (length pre) = 0 ->
  calibrate (t0 :: pre ++ tEnd :: rest) cell voltage m =
  Undefined (DivByZero calibrate_scale).
Proof.
  intros Hwf Hcell Hv Ht0 Hgate Hk Hm.
  rewrite (calibrate_run m cell voltage t0 pre tEnd rest Hwf Hcell Hv Ht0 Hgate).
  unfold calibrate_outcome.
  apply Z.eqb_neq in Hk. rewrite Hk, Hm. reflexivity.
Qed.

Lemma calibrate_zero_measurement_witness :
  wf broken_machine /\
  calib_measured broken_machine 0 3 = 0 /\
  calibrate (0 :: [100; 200; 250] ++ 251 :: [252]) 0 3700 broken_machine =
  Undefined (DivByZero calibrate_scale).
Proof.
  split; [exact wf_broken_machine|]. split; [vm_compute; reflexivity|].
  apply (calibrate_zero_measurement broken_machine 0 3700 0 [100; 200; 250]
           251 [252] wf_broken_machine).
  - by_eval.
  - vm_compute. discriminate.
  - by_eval.
  - split; [|vm_compute; reflexivity].
    repeat constructor; vm_compute; discriminate.
  - vm_compute. discriminate.
  - vm_compute. reflexivity.
Defined.





(** C5.  [getNumCells] scans the channels upwards, a channel being valid
    when its relative voltage reaches [LIPO_VCELL_MIN] (250 mV).  It returns
    [-1] exactly when a valid channel lies above a failed one; otherwise it
    returns the length of the initial run of valid channels (0 when channel
    0 fails). *)
Theorem getNumCells_prefix s :
  wf_lipo s ->
  LIPO_VCELL_MIN = 250 /\
  exists n,
    getNumCells s = Done n /\
    (n = -1 <-> broken_chain s) /\
    (n <> -1 ->
     0 <= n <= AdcChCnt s /\
     (forall i, 0 <= i < n -> valid_cell s i = true) /\
     (n < AdcChCnt s -> valid_cell s n = false)).
Proof.
  intros Hwf. split; [reflexivity|].
  destruct (getNumCells_spec s Hwf) as (n & Hrun & [[Hn Hb]|(Hr & Hv & Hi)]).
  - exists n. split; [exact Hrun|]. split; [tauto|]. intros Hne. contradiction.
  - exists n. split; [exact Hrun|]. split.
    + split; [lia|]. intros Hb. exfalso.
      apply (prefix_not_broken s n Hv Hi Hb).
    + intros _. split; [exact Hr|]. split; [exact Hv|].
      intros Hlt. apply Hi. lia.
Qed.

Lemma getNumCells_prefix_witness :
  wf_lipo pack3 /\ getNumCells pack3 = Done 3.
Proof.
  split; [exact wf_pack3|].
  destruct (getNumCells_prefix pack3 wf_pack3) as (_ & n & Hrun & _).
  rewrite Hrun. f_equal.
  assert (E : getNumCells pack3 = Done 3) by (vm_compute; reflexivity).
  rewrite E in Hrun. injection Hrun as <-. reflexivity.
Defined.

(** C6.  For [0 < i < AdcChCnt], [getCell i false] is
    [VCell[i] - VCell[i-1]] when that difference is non-negative and 0
    otherwise; for every valid [i], [getCell i true] is [VCell[i]]; and
    [getCell 0] is [VCell[0]] whatever the flag. *)
Theorem getCell_voltage s :
  wf_lipo s ->
  (forall i, 0 < i < AdcChCnt s ->
     getCell s i false =
     Done (if 0 <=? elt (VCell s) i - elt (VCell s) (i - 1)
           then elt (VCell s) i - elt (VCell s) (i - 1) else 0)) /\
  (forall i, 0 <= i < AdcChCnt s -> getCell s i true = Done (elt (VCell s) i)) /\
  (forall abs, getCell s 0 abs = Done (elt (VCell s) 0)).
Proof.
  intros Hwf. split; [|split].
  - intros i Hi. rewrite (getCell_rel s Hwf i Hi). f_equal.
    destruct (elt (VCell s) (i - 1) <=? elt (VCell s) i) eqn:E1;
      destruct (0 <=? elt (VCell s) i - elt (VCell s) (i - 1)) eqn:E2;
      try reflexivity.
    + apply Z.leb_le in E1. apply Z.leb_gt in E2. lia.
    + apply Z.leb_gt in E1. apply Z.leb_le in E2. lia.
  - apply getCell_abs. exact Hwf.
  - apply getCell_zero. exact Hwf.
Qed.

Lemma getCell_voltage_witness :
  wf_lipo pack3 /\
  getCell pack3 1 false = Done 900 /\ getCell pack3 2 true = Done 2800.
Proof.
  split; [exact wf_pack3|].
  destruct (getCell_voltage pack3 wf_pack3) as (Hrel & Habs & _).
  split.
  - rewrite (Hrel 1 ltac:(by_eval)). reflexivity.
  - rewrite (Habs 2 ltac:(by_eval)). reflexivity.
Defined.

(** C7.  When [getNumCells] returns [-1] or 0, [getMinCell] returns 0.
    When it returns [n > 0], [getMinCell] returns the smallest relative
    voltage among the cells [0 .. n-1], and that value is at least
    [LIPO_VCELL_MIN]. *)
Theorem getMinCell_smallest s :
  wf_lipo s ->
  exists n,
    getNumCells s = Done n /\
    (n <= 0 -> getMinCell s = Done 0) /\
    (0 < n ->
     exists v,
       getMinCell s = Done v /\
       LIPO_VCELL_MIN <= v /\
       (exists i, 0 <= i < n /\ getCell s i false = Done v) /\
       (forall i, 0 <= i < n ->
                  exists vi, getCell s i false = Done vi /\ v <= vi)).
Proof.
  intros Hwf.
  destruct (getNumCells_spec s Hwf) as (n & Hrun & Hpost).
  exists n. split; [exact Hrun|]. split.
  - intros Hle. unfold getMinCell. rewrite Hrun. simpl.
    assert (E : (0 <? n) = false) by (apply Z.ltb_ge; exact Hle).
    rewrite E. reflexivity.
  - intros Hpos. destruct Hpost as [[Hn _]|(Hr & Hv & _)]; [lia|].
    pose proof (getMinCell_loop_spec s Hwf n (Z.to_nat n) 0 UINT32_MAX) as H.
    rewrite Z2Nat.id in H by lia.
    destruct H as (r & Hloop & Hle & Hall & Hex); [lia | lia | lia | exact Hv |].
    assert (Hsome : exists i, 0 <= i < n /\ r = cell_mv s i).
    { destruct Hex as [Hex|Hex]; [|exact Hex].
      exists 0. split; [lia|].
      pose proof (Hall 0 ltac:(lia)) as H0.
      pose proof (cell_mv_u32 s Hwf 0 ltac:(lia)) as [_ H1].
      unfold UINT32_MAX in Hex. lia. }
    exists r. split; [|split; [|split]].
    + unfold getMinCell. rewrite Hrun. simpl.
      assert (E : (0 <? n) = true) by (apply Z.ltb_lt; exact Hpos).
      rewrite E. exact Hloop.
    + destruct Hsome as (i & Hi & ->).
      pose proof (Hv i Hi) as Hvi.
      rewrite (valid_cell_mv s Hwf i ltac:(lia)) in Hvi.
      apply Z.leb_le in Hvi. exact Hvi.
    + destruct Hsome as (i & Hi & ->). exists i. split; [exact Hi|].
      apply getCell_cell_mv; [exact Hwf | lia].
    + intros i Hi. exists (cell_mv s i). split.
      * apply getCell_cell_mv; [exact Hwf | lia].
      * apply Hall. exact Hi.
Qed.

Lemma getMinCell_smallest_witness :
  wf_lipo pack3 /\ getMinCell pack3 = Done 900.
Proof.
  split; [exact wf_pack3|].
  destruct (getMinCell_smallest pack3 wf_pack3) as (n & Hrun & _ & Hpos).
  assert (E : getNumCells pack3 = Done 3) by (vm_compute; reflexivity).
  rewrite E in Hrun. injection Hrun as <-.
  destruct (Hpos ltac:(by_eval)) as (v & Hmin & _).
  rewrite Hmin. f_equal.
  assert (E' : getMinCell pack3 = Done 900) by (vm_compute; reflexivity).
  rewrite E' in Hmin. injection Hmin as <-. reflexivity.
Defined.

(** C8, as the claim states it, fails: [SampleCnt] is a [uint32_t], and
    [2^32 - 1] polls within one window bring it to [UINT32_MAX]; the
    increment of the next poll wraps it to 0, and when that poll crosses the
    gate boundary [update] divides by it. *)
Lemma sample_counter_wraps :
  exists m t,
    reachable m /\ is_u32 t /\
    SampleCnt (lipo m) = UINT32_MAX /\
    task t m = Undefined (DivByZero update_average).
Proof.
  destruct (idle_polls UINT32_MAX ltac:(by_eval) demo_machine
              (reach_boot demo_board demo_params wf_demo_params)
              ltac:(by_eval) ltac:(by_eval))
    as (m & Hm & Hb & Hg & Hl & Hc).
  exists m, 250. split; [exact Hm|]. split; [by_eval|].
  split; [exact Hc|].
  apply task_wrapped.
  - apply reachable_wf. exact Hm.
  - by_eval.
  - unfold gate_elapsed. rewrite Hg, Hl. reflexivity.
  - exact Hc.
  - unfold task_vref_reading. rewrite Hb. by_eval.
Qed.

(** C8 (amended).  In every reachable state whose sample counter has not
    reached [UINT32_MAX], the poll leaves the counter at least 1 before it
    tests the gate boundary, so the averaging division
    [Accu[i] /= SampleCnt] of a finalisation started by that poll never
    divides by zero. *)
Theorem finalize_count_positive m t :
  reachable m -> is_u32 t -> SampleCnt (lipo m) <> UINT32_MAX ->
  (exists a,
     task_sample m = Done (tt, after_sampling m a) /\
     1 <= SampleCnt (lipo (after_sampling m a))) /\
  task t m <> Undefined (DivByZero update_average).
Proof.
  intros Hm Ht Hmax. pose proof (reachable_wf m Hm) as Hwf.
  split.
  - destruct (task_sample_spec m Hwf) as (a & Hrun & _).
    exists a. split; [exact Hrun|]. simpl.
    rewrite (counter_not_wrapped _ (wf_scnt _ (proj1 Hwf)) Hmax).
    pose proof (wf_scnt _ (proj1 Hwf)) as [? ?]. lia.
  - destruct (gate_elapsed t (lipo m)) eqn:Hgate.
    + destruct (Z.eq_dec (task_vref_reading m) 0) as [Hz|Hv].
      * rewrite (task_vref_zero t m Hwf Hgate Hz). discriminate.
      * destruct (task_fire t m Hwf Ht Hgate Hmax Hv) as (m' & Hrun & _).
        rewrite Hrun. discriminate.
    + destruct (task_idle t m Hwf Hgate) as (a & Hrun & _).
      rewrite Hrun. discriminate.
Qed.

Lemma finalize_count_positive_witness :
  reachable demo_machine /\ is_u32 250 /\
  SampleCnt (lipo demo_machine) <> UINT32_MAX /\
  task 250 demo_machine <> Undefined (DivByZero update_average).
Proof.
  assert (Hr : reachable demo_machine)
    by exact (reach_boot demo_board demo_params wf_demo_params).
  assert (Ht : is_u32 250) by by_eval.
  assert (Hmax : SampleCnt (lipo demo_machine) <> UINT32_MAX) by by_eval.
  split; [exact Hr|]. split; [exact Ht|]. split; [exact Hmax|].
  exact (proj2 (finalize_count_positive demo_machine 250 Hr Ht Hmax)).
Defined.



(** C10.  After [calibrate] has returned, every accumulator is 0, the
    sample counter is 0 and [LastTick] is the value of the last [millis()]
    of the call, whatever window was in progress before; the voltages
    [VCell] and the reported sample count are as they were.  And
    [calibrate] does return when the cell is in range, the reference reads
    nonzero, the clock leaves the gate time, and neither the sample count
    nor the measured voltage is zero. *)
Theorem calibrate_frame clock cell voltage m :
  wf m -> Forall is_u32 clock ->
  (forall r m',
     calibrate clock cell voltage m = Done (r, m') ->
     Accu (lipo m') = replicate (length (Accu (lipo m))) 0 /\
     (forall i, 0 <= i < AdcChCnt (lipo m) -> elt (Accu (lipo m')) i = 0) /\
     SampleCnt (lipo m') = 0 /\
     (exists t0 pre tEnd t1 post,
        clock = t0 :: pre ++ tEnd :: t1 :: post /\
        gate_passes (lipo m) t0 pre tEnd /\
        LastTick (lipo m') = t1) /\
     VCell (lipo m') = VCell (lipo m) /\
     Samples (lipo m') = Samples (lipo m) /\
     getSamples (lipo m') = getSamples (lipo m)) /\
  (forall t0 pre tEnd t1 post,
     clock = t0 :: pre ++ tEnd :: t1 :: post ->
     gate_passes (lipo m) t0 pre tEnd ->
     0 <= cell < AdcChCnt (lipo m) ->
     vref_reading m <> 0 ->
     calib_samples (length pre) <> 0 ->
     calib_measured m cell (length pre) <> 0 ->
     exists m', calibrate clock cell voltage m = Done (0, m')).
Proof.
  intros Hwf Hclock. split.
  - intros r m' Hdone.
    destruct (calibrate_done_inv _ _ _ _ _ _ Hwf Hclock Hdone)
      as (t0 & pre & tEnd & t1 & post & Hc & Hcell & _ & Hgate & _ & _ & _ & ->).
    unfold calibrated, getSamples. msimpl.
    split; [reflexivity|]. split.
    { intros i Hi. apply elt_replicate.
      rewrite (wf_accu_len _ (proj1 Hwf)), <- (wf_cnt _ (proj1 Hwf)).
      exact Hi. }
    split; [reflexivity|]. split; [|auto].
    exists t0, pre, tEnd, t1, post. auto.
  - intros t0 pre tEnd t1 post -> Hgate Hcell Hv Hk Hmv.
    inversion Hclock as [|? ? Ht0 _]; subst.
    exists (calibrated m cell voltage t1 (length pre)).
    rewrite (calibrate_run m cell voltage t0 pre tEnd (t1 :: post)
               Hwf Hcell Hv Ht0 Hgate).
    unfold calibrate_outcome.
    apply Z.eqb_neq in Hk. apply Z.eqb_neq in Hmv. rewrite Hk, Hmv.
    reflexivity.
Qed.

Lemma calibrate_frame_witness :
  wf demo_machine /\ Forall is_u32 [0; 100; 200; 250; 251; 252] /\
  exists m',
    calibrate [0; 100; 200; 250; 251; 252] 0 3700 demo_machine = Done (0, m') /\
    Accu (lipo m') = [0; 0; 0; 0; 0; 0] /\
    SampleCnt (lipo m') = 0 /\ LastTick (lipo m') = 252.
Proof.
  assert (Hclock : Forall is_u32 [0; 100; 200; 250; 251; 252])
    by (repeat constructor; by_eval).
  split; [exact wf_demo_machine|]. split; [exact Hclock|].
  destruct (calibrate_frame [0; 100; 200; 250; 251; 252] 0 3700 demo_machine
              wf_demo_machine Hclock) as [Hafter Hreturns].
  destruct (Hreturns 0 [100; 200; 250] 251 252 [] eq_refl) as (m' & Hrun).
  - split; [|by_eval]. repeat constructor; by_eval.
  - by_eval.
  - by_eval.
  - by_eval.
  - by_eval.
  - exists m'. split; [exact Hrun|].
    vm_compute in Hrun. injection Hrun as <-.
    repeat split; reflexivity.
Defined.

(** * Further properties of the code *)

(** ** Helper facts *)

Lemma task_idle_values t m :
  wf m -> gate_elapsed t (lipo m) = false ->
  exists a,
    task t m = Done (false, after_sampling m a) /\
    length a = length (Accu (lipo m)) /\
    Forall is_u32 a /\
    (forall i, 0 <= i < AdcChCnt (lipo m) ->
               elt a i = u32 (elt (Accu (lipo m)) i + sample_of m i)).
Proof.
  intros Hwf Hgate.
  destruct (task_sample_spec m Hwf) as (a & Hrun & Hlen & Ha & Hval).
  exists a. split; [|split; [|split]]; try assumption.
  unfold task. run_with Hrun.
  unfold bind, gets, gate_elapsed. msimpl.
  unfold gate_elapsed in Hgate. rewrite Hgate. reflexivity.
Qed.

Lemma task_fire_values t m :
  wf m -> is_u32 t -> gate_elapsed t (lipo m) = true ->
  SampleCnt (lipo m) <> UINT32_MAX -> task_vref_reading m <> 0 ->
  exists m',
    task t m = Done (true, m') /\
    wf m' /\
    param m' = param m /\
    GateTime (lipo m') = GateTime (lipo m) /\
    LastTick (lipo m') = t /\
    Samples (lipo m') = SampleCnt (lipo m) + 1 /\
    SampleCnt (lipo m') = 0 /\
    VRefAdc (lipo m') = vref_of (task_vref_reading m) /\
    (forall i, 0 <= i < AdcChCnt (lipo m) ->
       elt (Accu (lipo m')) i = 0 /\
       elt (VCell (lipo m')) i =
         Z.shiftr
           (u32 (LL_ADC_CALC_DATA_TO_VOLTAGE
                   (vref_of (task_vref_reading m))
                   (u32 (elt (Accu (lipo m)) i + sample_of m i)
                    / (SampleCnt (lipo m) + 1))
                 * elt (CellScale (param m)) i))
           (CellScaleDen (lipo m))).
Proof.
  intros Hwf Ht Hgate Hmax Hv.
  destruct (task_sample_spec m Hwf) as (a & Hrun & Hlen & Ha & Hval).
  pose proof (wf_after_sampling m a Hwf Hlen Ha) as Hwf1.
  fold (after_sampling m a) in Hrun.
  set (m2 := with_lipo (set_LastTick t) (after_sampling m a)).
  assert (Hwf2 : wf m2).
  { destruct Hwf1 as [Hl Hp]. split; [|exact Hp].
    apply wf_set_LastTick; assumption. }
  pose proof (counter_not_wrapped _ (wf_scnt _ (proj1 Hwf)) Hmax) as Hc.
  assert (Hcnt2 : SampleCnt (lipo m2) <> 0).
  { simpl. rewrite Hc. pose proof (wf_scnt _ (proj1 Hwf)) as [? ?]. lia. }
  destruct (update_spec m2 Hwf2 Hcnt2 Hv)
    as (a' & c' & Hupd & Hla & Hlc & Ha' & Hc' & Hall).
  eexists. split.
  - unfold task. run_with Hrun.
    unfold bind at 1. unfold gets at 1.
    change (gate_elapsed t (lipo (after_sampling m a)))
      with (gate_elapsed t (lipo m)).
    rewrite Hgate.
    unfold bind at 1. unfold modify at 1. fold m2.
    run_with Hupd. reflexivity.
  - destruct Hwf2 as [Hl2 Hp2]. simpl in Hla, Hlc.
    split.
    { split; [|exact Hp2]. simpl.
      apply wf_set_SampleCnt; [|unfold is_u32; lia].
      apply wf_set_Samples; [|apply u32_range].
      apply wf_set_Accu; [|exact Hla|exact Ha'].
      apply wf_set_VCell; [|exact Hlc|exact Hc'].
      apply wf_set_VRefAdc; [exact Hl2|].
      apply vref_of_u32. apply u32_range. }
    unfold task_vref_reading.
    unfold m2, after_sampling, vref_reading in *. msimpl. rewrite Hc.
    repeat (split; [reflexivity|]).
    intros i Hi. destruct (Hall i Hi) as [Hz Hf].
    split; [exact Hz|]. rewrite Hf.
    unfold finalized_mv, after_vref, vref_reading. msimpl.
    rewrite (Hval i Hi), Hc. reflexivity.
Qed.

Lemma task_done_cases t m b m' :
  wf m -> is_u32 t -> task t m = Done (b, m') ->
  (gate_elapsed t (lipo m) = false /\ b = false /\
   exists a, m' = after_sampling m a) \/
  (gate_elapsed t (lipo m) = true /\ b = true /\
   SampleCnt (lipo m) <> UINT32_MAX /\ task_vref_reading m <> 0).
Proof.
  intros Hwf Ht Hdone.
  destruct (gate_elapsed t (lipo m)) eqn:Hgate.
  - right.
    destruct (Z.eq_dec (task_vref_reading m) 0) as [Hz|Hv].
    { rewrite (task_vref_zero t m Hwf Hgate Hz) in Hdone. discriminate. }
    destruct (Z.eq_dec (SampleCnt (lipo m)) UINT32_MAX) as [Hmax|Hmax].
    { rewrite (task_wrapped t m Hwf Ht Hgate Hmax Hv) in Hdone. discriminate. }
    destruct (task_fire t m Hwf Ht Hgate Hmax Hv) as (m2 & Hrun & _).
    rewrite Hrun in Hdone. injection Hdone as <- _. auto.
  - left. destruct (task_idle t m Hwf Hgate) as (a & Hrun & _).
    rewrite Hrun in Hdone. injection Hdone as <- <-. eauto.
Qed.

(** ** The gate time and the accessors *)

(** X1.  [setGateTime g] changes the gate time and nothing else - the
    window in progress keeps its accumulators, its sample count and its
    start - and from then on a returning poll at [t] finalises exactly when
    [t - LastTick >= g]. *)
Theorem setGateTime_effect g m :
  wf m -> 0 <= g < 2 ^ 16 ->
  exists m',
    setGateTime g m = Done (tt, m') /\
    wf m' /\
    GateTime (lipo m') = g /\
    Accu (lipo m') = Accu (lipo m) /\
    SampleCnt (lipo m') = SampleCnt (lipo m) /\
    LastTick (lipo m') = LastTick (lipo m) /\
    VCell (lipo m') = VCell (lipo m) /\
    Samples (lipo m') = Samples (lipo m) /\
    param m' = param m /\
    forall t b m'',
      is_u32 t -> task t m' = Done (b, m'') ->
      (b = true <-> g <= u32 (t - LastTick (lipo m))).
Proof.
  intros [Hl Hp] Hg. eexists. split; [reflexivity|].
  assert (Hwf' : wf (with_lipo (set_GateTime g) m))
    by (split; [apply wf_set_GateTime; assumption | exact Hp]).
  split; [exact Hwf'|]. msimpl. repeat (split; [reflexivity|]).
  intros t b m'' Ht Hdone.
  destruct (task_done_cases _ _ _ _ Hwf' Ht Hdone)
    as [(Hgate & -> & _)|(Hgate & -> & _)];
    unfold gate_elapsed in Hgate; simpl in Hgate.
  - apply Z.leb_gt in Hgate. split; [discriminate | lia].
  - apply Z.leb_le in Hgate. tauto.
Qed.

Lemma setGateTime_effect_witness :
  wf demo_machine /\ 0 <= 1000 < 2 ^ 16 /\
  exists m', setGateTime 1000 demo_machine = Done (tt, m') /\
             GateTime (lipo m') = 1000.
Proof.
  assert (Hg : 0 <= 1000 < 2 ^ 16) by by_eval.
  split; [exact wf_demo_machine|]. split; [exact Hg|].
  destruct (setGateTime_effect 1000 demo_machine wf_demo_machine Hg)
    as (m' & Hrun & _ & Hgate & _).
  exists m'. split; assumption.
Defined.

(** X2.  [getSamples] returns a [uint16_t] although the count is kept in a
    [uint32_t]: after a finalising poll it reports the sample count of the
    window modulo 65536 - the count itself for windows of fewer than 65536
    polls, and 0 for a window of exactly 65536 polls. *)
Theorem getSamples_truncates t m :
  wf m -> is_u32 t ->
  GateTime (lipo m) <= u32 (t - LastTick (lipo m)) ->
  SampleCnt (lipo m) <> UINT32_MAX -> task_vref_reading m <> 0 ->
  exists m',
    task t m = Done (true, m') /\
    getSamples (lipo m') = (SampleCnt (lipo m) + 1) mod 2 ^ 16 /\
    (SampleCnt (lipo m) + 1 < 2 ^ 16 ->
     getSamples (lipo m') = SampleCnt (lipo m) + 1) /\
    (SampleCnt (lipo m) + 1 = 2 ^ 16 -> getSamples (lipo m') = 0).
Proof.
  intros Hwf Ht Hge Hmax Hv.
  assert (Hgate : gate_elapsed t (lipo m) = true)
    by (unfold gate_elapsed; apply Z.leb_le; exact Hge).
  destruct (task_fire t m Hwf Ht Hgate Hmax Hv)
    as (m' & Hrun & _ & _ & _ & _ & _ & _ & Hs & _).
  exists m'. split; [exact Hrun|]. unfold getSamples. rewrite Hs.
  split; [reflexivity|]. split.
  - intros Hlt. apply Z.mod_small.
    pose proof (wf_scnt _ (proj1 Hwf)) as [? ?]. lia.
  - intros ->. reflexivity.
Qed.

Lemma getSamples_truncates_witness :
  wf demo_machine /\
  exists m', task 250 demo_machine = Done (true, m') /\
             getSamples (lipo m') = 1.
Proof.
  assert (Ht : is_u32 250) by by_eval.
  assert (Hge : GateTime (lipo demo_machine)
                <= u32 (250 - LastTick (lipo demo_machine))) by by_eval.
  assert (Hmax : SampleCnt (lipo demo_machine) <> UINT32_MAX) by by_eval.
  assert (Hv : task_vref_reading demo_machine <> 0) by by_eval.
  assert (Hlt : SampleCnt (lipo demo_machine) + 1 < 2 ^ 16) by by_eval.
  split; [exact wf_demo_machine|].
  destruct (getSamples_truncates 250 demo_machine wf_demo_machine Ht Hge Hmax Hv)
    as (m' & Hrun & _ & Hsmall & _).
  exists m'. split; [exact Hrun|]. rewrite (Hsmall Hlt). reflexivity.
Defined.

(** X3.  [updateVref] divides by the raw code of the reference channel
    without a test: when that channel reads 0, a poll that crosses the gate
    boundary and every call of [calibrate] divide by zero. *)
Theorem reference_reading_zero t clock cell voltage m :
  wf m ->
  (GateTime (lipo m) <= u32 (t - LastTick (lipo m)) ->
   task_vref_reading m = 0 ->
   task t m = Undefined (DivByZero vref_division)) /\
  (vref_reading m = 0 ->
   calibrate clock cell voltage m = Undefined (DivByZero vref_division)).
Proof.
  intros Hwf. split.
  - intros Hge Hz. apply task_vref_zero; [exact Hwf | | exact Hz].
    unfold gate_elapsed. apply Z.leb_le. exact Hge.
  - intros Hz. unfold calibrate. apply bind_undefined.
    apply updateVref_zero. exact Hz.
Qed.

Lemma reference_reading_zero_witness :
  wf (boot (mkBoard 17 (fun _ _ => 0)) demo_params) /\
  task 250 (boot (mkBoard 17 (fun _ _ => 0)) demo_params)
  = Undefined (DivByZero vref_division) /\
  calibrate [0; 100; 251; 252] 0 3700
            (boot (mkBoard 17 (fun _ _ => 0)) demo_params)
  = Undefined (DivByZero vref_division).
Proof.
  assert (Hwf : wf (boot (mkBoard 17 (fun _ _ => 0)) demo_params))
    by (split; [apply wf_LiPo_new | apply wf_demo_params]).
  split; [exact Hwf|].
  destruct (reference_reading_zero 250 [0; 100; 251; 252] 0 3700 _ Hwf)
    as [Htask Hcal].
  split; [apply Htask | apply Hcal]; by_eval.
Defined.

(** X4.  After a finalising poll [getVref] is
    [LIPO_VREFINT * 4095 / raw] for the raw code [raw] of the reference
    channel: at most 4914000, and at least the nominal 1200 mV whenever the
    raw code is a 12-bit value. *)
Theorem getVref_after_poll t m :
  wf m -> is_u32 t ->
  GateTime (lipo m) <= u32 (t - LastTick (lipo m)) ->
  SampleCnt (lipo m) <> UINT32_MAX -> task_vref_reading m <> 0 ->
  exists m',
    task t m = Done (true, m') /\
    getVref (lipo m') =
      LIPO_VREFINT * LL_ADC_DIGITAL_SCALE / task_vref_reading m /\
    getVref (lipo m') <= 4914000 /\
    (task_vref_reading m <= 4095 -> LIPO_VREFINT <= getVref (lipo m')).
Proof.
  intros Hwf Ht Hge Hmax Hv.
  assert (Hgate : gate_elapsed t (lipo m) = true)
    by (unfold gate_elapsed; apply Z.leb_le; exact Hge).
  destruct (task_fire_values t m Hwf Ht Hgate Hmax Hv)
    as (m' & Hrun & _ & _ & _ & _ & _ & _ & Hvref & _).
  exists m'. split; [exact Hrun|]. unfold getVref. rewrite Hvref.
  unfold vref_of.
  change (u32 (LIPO_VREFINT * LL_ADC_DIGITAL_SCALE)) with 4914000.
  change (LIPO_VREFINT * LL_ADC_DIGITAL_SCALE) with 4914000.
  change LIPO_VREFINT with 1200.
  assert (Hpos : 0 < task_vref_reading m).
  { pose proof (u32_range (adc_code (board m) (AVREF (board m))
       (conversions m + Z.to_nat (AdcChCnt (lipo m)))%nat)) as [H0 _].
    fold (task_vref_reading m) in H0. lia. }
  split; [reflexivity|]. split.
  - apply Z.div_le_upper_bound; nia.
  - intros Hle. apply Z.div_le_lower_bound; lia.
Qed.

Lemma getVref_after_poll_witness :
  wf demo_machine /\
  exists m', task 250 demo_machine = Done (true, m') /\
             getVref (lipo m') = 4914000.
Proof.
  assert (Ht : is_u32 250) by by_eval.
  assert (Hge : GateTime (lipo demo_machine)
                <= u32 (250 - LastTick (lipo demo_machine))) by by_eval.
  assert (Hmax : SampleCnt (lipo demo_machine) <> UINT32_MAX) by by_eval.
  assert (Hv : task_vref_reading demo_machine <> 0) by by_eval.
  split; [exact wf_demo_machine|].
  destruct (getVref_after_poll 250 demo_machine wf_demo_machine Ht Hge Hmax Hv)
    as (m' & Hrun & Hval & _).
  exists m'. split; [exact Hrun|]. rewrite Hval. reflexivity.
Defined.

(** X5.  The first window of a newly constructed monitor starts at time 0,
    not at the first call: the first poll, at time [t], finalises exactly
    when [t >= LIPO_DEFAULT_GATETIME] (250 ms), and then with a window of a
    single sample. *)
Theorem first_poll b p t :
  wf_param p -> is_u32 t ->
  (t < LIPO_DEFAULT_GATETIME ->
   exists m', task t (boot b p) = Done (false, m') /\
              SampleCnt (lipo m') = 1 /\ LastTick (lipo m') = 0) /\
  (LIPO_DEFAULT_GATETIME <= t ->
   task_vref_reading (boot b p) <> 0 ->
   exists m', task t (boot b p) = Done (true, m') /\
              Samples (lipo m') = 1 /\ LastTick (lipo m') = t).
Proof.
  intros Hp Ht.
  assert (Hwf : wf (boot b p)) by (split; [apply wf_LiPo_new | exact Hp]).
  assert (Hu : u32 (t - 0) = t) by (rewrite Z.sub_0_r; apply u32_id; exact Ht).
  split.
  - intros Hlt.
    assert (Hgate : gate_elapsed t (lipo (boot b p)) = false).
    { unfold gate_elapsed. simpl. rewrite Hu. apply Z.leb_gt. exact Hlt. }
    destruct (task_idle t _ Hwf Hgate) as (a & Hrun & _).
    eexists. split; [exact Hrun|]. split; reflexivity.
  - intros Hge Hv.
    assert (Hgate : gate_elapsed t (lipo (boot b p)) = true).
    { unfold gate_elapsed. simpl. rewrite Hu. apply Z.leb_le. exact Hge. }
    destruct (task_fire t _ Hwf Ht Hgate ltac:(discriminate) Hv)
      as (m' & Hrun & _ & _ & _ & _ & _ & Hl & Hs & _).
    exists m'. split; [exact Hrun|]. split; [exact Hs | exact Hl].
Qed.

Lemma first_poll_witness :
  wf_param demo_params /\ is_u32 5000 /\
  exists m', task 5000 (boot demo_board demo_params) = Done (true, m') /\
             Samples (lipo m') = 1.
Proof.
  assert (Ht : is_u32 5000) by by_eval.
  assert (Hge : LIPO_DEFAULT_GATETIME <= 5000) by by_eval.
  assert (Hv : task_vref_reading (boot demo_board demo_params) <> 0) by by_eval.
  split; [exact wf_demo_params|]. split; [exact Ht|].
  destruct (first_poll demo_board demo_params 5000 wf_demo_params Ht)
    as [_ Hfire].
  destruct (Hfire Hge Hv) as (m' & Hrun & Hs & _).
  exists m'. split; assumption.
Defined.

(** X6.  A poll never writes the caller's parameter structure and never
    changes the gate time; a poll that does not finalise also leaves the
    voltages, the reported sample count and the reference voltage alone. *)
Theorem task_frame t m b m' :
  wf m -> is_u32 t -> task t m = Done (b, m') ->
  param m' = param m /\
  GateTime (lipo m') = GateTime (lipo m) /\
  (b = false ->
   VCell (lipo m') = VCell (lipo m) /\
   Samples (lipo m') = Samples (lipo m) /\
   VRefAdc (lipo m') = VRefAdc (lipo m) /\
   LastTick (lipo m') = LastTick (lipo m)).
Proof.
  intros Hwf Ht Hdone.
  destruct (task_done_cases _ _ _ _ Hwf Ht Hdone)
    as [(_ & -> & a & ->)|(Hgate & -> & Hmax & Hv)].
  - simpl. split; [reflexivity|]. split; [reflexivity|].
    intros _. repeat split.
  - destruct (task_fire t m Hwf Ht Hgate Hmax Hv)
      as (m2 & Hrun & _ & _ & Hp & _ & Hg & _).
    rewrite Hrun in Hdone. injection Hdone as <-.
    split; [exact Hp|]. split; [exact Hg|]. discriminate.
Qed.

Lemma task_frame_witness :
  wf demo_machine /\ is_u32 100 /\
  exists m', task 100 demo_machine = Done (false, m') /\
             param m' = param demo_machine.
Proof.
  assert (Ht : is_u32 100) by by_eval.
  split; [exact wf_demo_machine|]. split; [exact Ht|].
  destruct (task_idle 100 demo_machine wf_demo_machine ltac:(by_eval))
    as (a & Hrun & _).
  exists (after_sampling demo_machine a). split; [exact Hrun|].
  exact (proj1 (task_frame 100 demo_machine false _ wf_demo_machine Ht Hrun)).
Defined.

(** ** The detected pack *)

Lemma getMinCell_run s n :
  wf_lipo s -> getNumCells s = Done n -> 0 < n ->
  n <= AdcChCnt s /\
  (forall i, 0 <= i < n -> valid_cell s i = true) /\
  exists v,
    getMinCell s = Done v /\
    (forall i, 0 <= i < n -> v <= cell_mv s i) /\
    0 <= v.
Proof.
  intros Hwf Hrun Hpos.
  destruct (getNumCells_spec s Hwf) as (n' & Hrun' & Hpost).
  rewrite Hrun in Hrun'. injection Hrun' as <-.
  destruct Hpost as [[Hn _]|(Hr & Hv & _)]; [lia|].
  split; [lia|]. split; [exact Hv|].
  pose proof (getMinCell_loop_spec s Hwf n (Z.to_nat n) 0 UINT32_MAX) as H.
  rewrite Z2Nat.id in H by lia.
  destruct H as (r & Hloop & Hle & Hall & Hex); [lia | lia | lia | exact Hv |].
  exists r. split; [|split].
  - unfold getMinCell. rewrite Hrun. simpl.
    assert (E : (0 <? n) = true) by (apply Z.ltb_lt; exact Hpos).
    rewrite E. exact Hloop.
  - exact Hall.
  - destruct Hex as [->|(i & Hi & ->)]; [unfold UINT32_MAX; lia|].
    apply (cell_mv_u32 s Hwf i). lia.
Qed.

Lemma stack_sum s n L :
  wf_lipo s -> n <= AdcChCnt s ->
  (forall i, 0 <= i < n -> valid_cell s i = true) ->
  (forall i, 0 <= i < n -> L <= cell_mv s i) ->
  forall k : nat,
    Z.of_nat k < n ->
    pack_sum s (S k) = Done (elt (VCell s) (Z.of_nat k)) /\
    L * (Z.of_nat k + 1) <= elt (VCell s) (Z.of_nat k).
Proof.
  intros Hwf Hn Hvalid Hlow. induction k as [|k IH]; intros Hk.
  - cbn [pack_sum rbind]. change (Z.of_nat 0) with 0.
    rewrite (getCell_zero s Hwf). cbn [rbind]. split; [reflexivity|].
    pose proof (Hlow 0 ltac:(lia)) as H0. unfold cell_mv in H0. simpl in H0.
    lia.
  - destruct (IH ltac:(lia)) as [Hsum Hbound].
    assert (Hi : 0 <= Z.of_nat (S k) < AdcChCnt s) by lia.
    pose proof (Hvalid (Z.of_nat (S k)) ltac:(lia)) as Hv.
    rewrite (valid_cell_mv s Hwf _ Hi) in Hv. apply Z.leb_le in Hv.
    pose proof (Hlow (Z.of_nat (S k)) ltac:(lia)) as Hl.
    assert (Hcell : cell_mv s (Z.of_nat (S k)) =
                    elt (VCell s) (Z.of_nat (S k)) - elt (VCell s) (Z.of_nat k)).
    { unfold cell_mv in *.
      assert (E0 : (Z.of_nat (S k) =? 0) = false) by (apply Z.eqb_neq; lia).
      rewrite E0 in *.
      replace (Z.of_nat (S k) - 1) with (Z.of_nat k) in * by lia.
      destruct (elt (VCell s) (Z.of_nat k) <=? elt (VCell s) (Z.of_nat (S k)));
        [reflexivity|].
      unfold LIPO_VCELL_MIN in Hv. lia. }
    change (pack_sum s (S (S k)))
      with (rbind (pack_sum s (S k))
                  (fun below =>
                     rbind (getCell s (Z.of_nat (S k)) false)
                           (fun v => Done (below + v)))).
    rewrite Hsum. cbn [rbind].
    rewrite (getCell_cell_mv s Hwf _ Hi). cbn [rbind].
    rewrite Hcell in *. split; [f_equal; lia|]. lia.
Qed.

(** X7.  For every channel in range the relative voltage [getCell(i)] is
    between 0 and the absolute voltage [getCell(i, true)]. *)
Theorem getCell_relative_le_absolute s i :
  wf_lipo s -> 0 <= i < AdcChCnt s ->
  exists rel abs_,
    getCell s i false = Done rel /\
    getCell s i true = Done abs_ /\
    0 <= rel <= abs_.
Proof.
  intros Hwf Hi.
  exists (cell_mv s i), (elt (VCell s) i).
  split; [apply getCell_cell_mv; assumption|].
  split; [apply getCell_abs; assumption|].
  pose proof (cell_mv_u32 s Hwf i Hi) as [H0 _].
  split; [exact H0|].
  unfold cell_mv. destruct (i =? 0) eqn:E.
  - apply Z.eqb_eq in E. subst i. lia.
  - apply Z.eqb_neq in E.
    pose proof (VCell_u32 s Hwf i Hi) as [Hi0 _].
    pose proof (VCell_u32 s Hwf (i - 1) ltac:(lia)) as [Hl0 _].
    destruct (elt (VCell s) (i - 1) <=? elt (VCell s) i); lia.
Qed.

Lemma getCell_relative_le_absolute_witness :
  wf_lipo pack3 /\ 0 <= 2 < AdcChCnt pack3 /\
  exists rel abs_,
    getCell pack3 2 false = Done rel /\ getCell pack3 2 true = Done abs_ /\
    rel <= abs_.
Proof.
  assert (Hi : 0 <= 2 < AdcChCnt pack3) by by_eval.
  split; [exact wf_pack3|]. split; [exact Hi|].
  destruct (getCell_relative_le_absolute pack3 2 wf_pack3 Hi)
    as (rel & abs_ & Hr & Ha & _ & Hle).
  exists rel, abs_. auto.
Defined.

(** X8.  When [getNumCells] detects [n > 0] cells, their relative voltages
    add up to the absolute voltage of the top cell, [getCell(n-1, true)],
    and that voltage is at least [n * LIPO_VCELL_MIN]. *)
Theorem detected_pack_adds_up s n :
  wf_lipo s -> getNumCells s = Done n -> 0 < n ->
  exists top,
    getCell s (n - 1) true = Done top /\
    pack_sum s (Z.to_nat n) = Done top /\
    LIPO_VCELL_MIN * n <= top.
Proof.
  intros Hwf Hrun Hpos.
  destruct (getMinCell_run s n Hwf Hrun Hpos) as (Hn & Hvalid & _).
  assert (Hlow : forall i, 0 <= i < n -> LIPO_VCELL_MIN <= cell_mv s i).
  { intros i Hi. pose proof (Hvalid i Hi) as Hv.
    rewrite (valid_cell_mv s Hwf i ltac:(lia)) in Hv.
    apply Z.leb_le. exact Hv. }
  destruct (stack_sum s n LIPO_VCELL_MIN Hwf Hn Hvalid Hlow (Z.to_nat (n - 1))
              ltac:(lia)) as [Hsum Hbound].
  rewrite Z2Nat.id in Hsum, Hbound by lia.
  replace (S (Z.to_nat (n - 1))) with (Z.to_nat n) in Hsum by lia.
  exists (elt (VCell s) (n - 1)).
  split; [apply getCell_abs; [exact Hwf | lia]|].
  split; [exact Hsum|]. replace (n - 1 + 1) with n in Hbound by lia.
  exact Hbound.
Qed.

Lemma detected_pack_adds_up_witness :
  wf_lipo pack3 /\ getNumCells pack3 = Done 3 /\
  pack_sum pack3 3 = Done 2800.
Proof.
  assert (Hrun : getNumCells pack3 = Done 3) by by_eval.
  assert (Hpos : 0 < 3) by by_eval.
  split; [exact wf_pack3|]. split; [exact Hrun|].
  destruct (detected_pack_adds_up pack3 3 wf_pack3 Hrun Hpos)
    as (top & Htop & Hsum & _).
  change (Z.to_nat 3) with 3%nat in Hsum. rewrite Hsum.
  rewrite <- Htop. by_eval.
Defined.

(** X9.  When [getNumCells] detects [n > 0] cells, [n] times the weakest
    cell voltage [getMinCell] does not exceed the absolute voltage of the
    top cell. *)
Theorem weakest_cell_bounds_pack s n :
  wf_lipo s -> getNumCells s = Done n -> 0 < n ->
  exists v top,
    getMinCell s = Done v /\
    getCell s (n - 1) true = Done top /\
    v * n <= top.
Proof.
  intros Hwf Hrun Hpos.
  destruct (getMinCell_run s n Hwf Hrun Hpos)
    as (Hn & Hvalid & v & Hmin & Hall & _).
  destruct (stack_sum s n v Hwf Hn Hvalid Hall (Z.to_nat (n - 1)) ltac:(lia))
    as [_ Hbound].
  rewrite Z2Nat.id in Hbound by lia.
  replace (n - 1 + 1) with n in Hbound by lia.
  exists v, (elt (VCell s) (n - 1)).
  split; [exact Hmin|].
  split; [apply getCell_abs; [exact Hwf | lia]|exact Hbound].
Qed.

Lemma weakest_cell_bounds_pack_witness :
  wf_lipo pack3 /\ getNumCells pack3 = Done 3 /\
  exists v, getMinCell pack3 = Done v /\ v * 3 <= 2800.
Proof.
  assert (Hrun : getNumCells pack3 = Done 3) by by_eval.
  assert (Hpos : 0 < 3) by by_eval.
  split; [exact wf_pack3|]. split; [exact Hrun|].
  destruct (weakest_cell_bounds_pack pack3 3 wf_pack3 Hrun Hpos)
    as (v & top & Hmin & Htop & Hle).
  exists v. split; [exact Hmin|].
  assert (E : getCell pack3 (3 - 1) true = Done 2800) by by_eval.
  rewrite E in Htop. injection Htop as <-. exact Hle.
Defined.

(** ** More on [calibrate] *)

Lemma calib_measured_nonneg m cell k : 0 <= calib_measured m cell k.
Proof.
  unfold calib_measured, LL_ADC_CALC_DATA_TO_VOLTAGE.
  pose proof (u32_range (calib_raw m cell k / calib_samples k
                         * vref_of (vref_reading m))) as [H0 _].
  apply Z.div_pos; [exact H0 | reflexivity].
Qed.

Lemma rescale_bounds v mv :
  0 <= v -> 0 < mv ->
  v - 1 - mv / 2048 <= mv * (v * 2048 / mv) / 2048 <= v.
Proof.
  intros Hv Hmv.
  pose proof (Z.mul_div_le (v * 2048) mv Hmv) as H1.
  pose proof (Z.mul_succ_div_gt (v * 2048) mv Hmv) as H2.
  set (x := mv * (v * 2048 / mv)) in *.
  pose proof (Z.mul_div_le x 2048 ltac:(lia)) as H3.
  pose proof (Z.mul_succ_div_gt x 2048 ltac:(lia)) as H4.
  pose proof (Z.mul_div_le mv 2048 ltac:(lia)) as H5.
  pose proof (Z.mul_succ_div_gt mv 2048 ltac:(lia)) as H6.
  lia.
Qed.

(** X10.  If the clock has already passed the gate time when [calibrate]
    tests it for the first time, the loop body never runs, the sample
    counter is 0 and [Accu[cell] /= SampleCnt] divides by zero. *)
Theorem calibrate_without_sample m cell voltage t0 tEnd rest :
  wf m ->
  0 <= cell < AdcChCnt (lipo m) ->
  vref_reading m <> 0 ->
  is_u32 t0 ->
  GateTime (lipo m) < u32 (tEnd - t0) ->
  calibrate (t0 :: tEnd :: rest) cell voltage m =
  Undefined (DivByZero calibrate_average).
Proof.
  intros Hwf Hcell Hv Ht0 Hend.
  assert (Hgate : gate_passes (lipo m) t0 [] tEnd)
    by (split; [constructor | exact Hend]).
  exact (calibrate_run m cell voltage t0 [] tEnd rest Hwf Hcell Hv Ht0 Hgate).
Qed.

Lemma calibrate_without_sample_witness :
  wf demo_machine /\
  calibrate [0; 251; 252] 0 3700 demo_machine =
  Undefined (DivByZero calibrate_average).
Proof.
  split; [exact wf_demo_machine|].
  apply (calibrate_without_sample demo_machine 0 3700 0 251 [252]
           wf_demo_machine); by_eval.
Defined.

(** X11.  [calibrate] does not return while [millis() - LastTick <=
    GateTime]: on a clock that stays within the gate time it is still in
    its loop when the trace ends.  When it returns, it has made one
    conversion on the reference channel and one on the cell's channel for
    each clock value within the gate time, and the object's reference
    voltage is the one just measured. *)
Theorem calibrate_blocks_for_gate m cell voltage t0 :
  wf m ->
  0 <= cell < AdcChCnt (lipo m) ->
  vref_reading m <> 0 ->
  is_u32 t0 ->
  (forall clock,
     Forall (fun t => u32 (t - t0) <= GateTime (lipo m)) clock ->
     calibrate (t0 :: clock) cell voltage m = Blocked) /\
  (forall pre tEnd t1 post r m',
     gate_passes (lipo m) t0 pre tEnd ->
     calibrate (t0 :: pre ++ tEnd :: t1 :: post) cell voltage m = Done (r, m') ->
     conversions m' = (conversions m + 1 + length pre)%nat /\
     getVref (lipo m') =
       LIPO_VREFINT * LL_ADC_DIGITAL_SCALE / vref_reading m).
Proof.
  intros Hwf Hcell Hv Ht0. pose proof Hwf as [Hl Hp].
  assert (Hr : 0 <= cell < Z.of_nat (length (Accu (lipo m))))
    by (rewrite (wf_accu_len _ Hl), <- (wf_cnt _ Hl); exact Hcell).
  split.
  - intros clock Hall. unfold calibrate.
    run ltac:(apply updateVref_run; exact Hv).
    run ltac:(apply store_Accu_run; exact Hr).
    run ltac:(apply modify_run).
    run ltac:(reflexivity).
    run ltac:(apply modify_run).
    apply bind_blocked. apply calibrate_loop_blocked.
    + split; [|exact Hp]. simpl.
      apply wf_set_LastTick; [|exact Ht0].
      apply wf_set_SampleCnt; [|unfold is_u32; lia].
      apply wf_set_Accu; [|apply length_insert|].
      * apply wf_set_VRefAdc; [exact Hl|]. apply vref_of_u32, u32_range.
      * apply Forall_insert_u32; [apply (wf_accu _ Hl)|unfold is_u32; lia].
    + exact Hcell.
    + eapply Forall_impl; [exact Hall|]. intros t Ht. unfold within_gate.
      simpl. apply Z.leb_le. exact Ht.
  - intros pre tEnd t1 post r m' Hgate Hdone.
    rewrite (calibrate_run m cell voltage t0 pre tEnd (t1 :: post)
               Hwf Hcell Hv Ht0 Hgate) in Hdone.
    unfold calibrate_outcome in Hdone.
    destruct (calib_samples (length pre) =? 0); [discriminate|].
    destruct (calib_measured m cell (length pre) =? 0); [discriminate|].
    cbn [head] in Hdone. injection Hdone as _ <-.
    unfold calibrated, getVref. msimpl. split; [lia | reflexivity].
Qed.

Lemma calibrate_blocks_for_gate_witness :
  wf demo_machine /\
  calibrate [0; 10; 20; 250] 0 3700 demo_machine = Blocked.
Proof.
  assert (Hcell : 0 <= 0 < AdcChCnt (lipo demo_machine)) by by_eval.
  assert (Hv : vref_reading demo_machine <> 0) by by_eval.
  assert (Ht0 : is_u32 0) by by_eval.
  split; [exact wf_demo_machine|].
  destruct (calibrate_blocks_for_gate demo_machine 0 3700 0 wf_demo_machine
              Hcell Hv Ht0) as [Hblocked _].
  apply Hblocked. repeat constructor; by_eval.
Defined.

(** X12.  Calibration round trip.  After [calibrate(cell, voltage)] with
    measured voltage [mv], a window whose raw average on that channel and
    whose reference reading equal those of the calibration is finalised to
    a cell-stack voltage within [1 + mv / 2048] mV below [voltage], and
    never above it. *)
Theorem calibration_round_trip m cell voltage t0 pre tEnd t1 post :
  wf m ->
  0 <= cell < AdcChCnt (lipo m) ->
  vref_reading m <> 0 ->
  is_u32 t0 ->
  gate_passes (lipo m) t0 pre tEnd ->
  calib_samples (length pre) <> 0 ->
  calib_measured m cell (length pre) <> 0 ->
  0 <= voltage < 2 ^ 21 ->
  exists m1,
    calibrate (t0 :: pre ++ tEnd :: t1 :: post) cell voltage m = Done (0, m1) /\
    forall m2,
      wf m2 ->
      SampleCnt (lipo m2) <> 0 ->
      elt (CellScale (param m2)) cell = elt (CellScale (param m1)) cell ->
      vref_reading m2 = vref_reading m ->
      elt (Accu (lipo m2)) cell / SampleCnt (lipo m2) =
        calib_raw m cell (length pre) / calib_samples (length pre) ->
      exists m3,
        update m2 = Done (tt, m3) /\
        voltage - 1 - calib_measured m cell (length pre) / 2048
          <= elt (VCell (lipo m3)) cell <= voltage.
Proof.
  intros Hwf Hcell Hv Ht0 Hgate Hk Hmv Hvolt.
  pose proof Hwf as [Hl Hp].
  assert (Hrs : 0 <= cell < Z.of_nat (length (CellScale (param m))))
    by (rewrite (wf_scale_len _ Hp), <- (wf_cnt _ Hl); exact Hcell).
  exists (calibrated m cell voltage t1 (length pre)). split.
  { rewrite (calibrate_run m cell voltage t0 pre tEnd (t1 :: post)
               Hwf Hcell Hv Ht0 Hgate).
    unfold calibrate_outcome.
    apply Z.eqb_neq in Hk. apply Z.eqb_neq in Hmv. rewrite Hk, Hmv.
    reflexivity. }
  intros m2 Hwf2 Hcnt2 Hscale Hvref Havg.
  assert (Hv2 : vref_reading m2 <> 0) by (rewrite Hvref; exact Hv).
  destruct (update_spec m2 Hwf2 Hcnt2 Hv2)
    as (a & c & Hrun & _ & _ & _ & _ & Hall).
  assert (Hcell2 : 0 <= cell < AdcChCnt (lipo m2))
    by (rewrite (wf_cnt _ (proj1 Hwf2)), <- (wf_cnt _ Hl); exact Hcell).
  destruct (Hall cell Hcell2) as [_ Hval].
  eexists. split; [exact Hrun|]. msimpl. rewrite Hval.
  unfold finalized_mv, after_vref. msimpl.
  rewrite Hvref, Havg, Hscale, (wf_den _ (proj1 Hwf2)).
  fold (calib_measured m cell (length pre)).
  unfold calibrated. msimpl. rewrite elt_insert_eq by exact Hrs.
  unfold calib_scale. rewrite (wf_den _ Hl).
  set (mv := calib_measured m cell (length pre)) in *.
  assert (Hpos : 0 < mv) by (pose proof (calib_measured_nonneg m cell (length pre)); lia).
  unfold LIPO_DENOMINATOR.
  rewrite Z.shiftl_mul_pow2 by lia.
  change (2 ^ 11) with 2048.
  rewrite (u32_id (voltage * 2048)) by (unfold is_u32; lia).
  pose proof (Z.mul_div_le (voltage * 2048) mv Hpos) as Hle.
  assert (H0 : 0 <= voltage * 2048 / mv) by (apply Z.div_pos; lia).
  rewrite u32_id by (unfold is_u32; nia).
  rewrite Z.shiftr_div_pow2 by lia. change (2 ^ 11) with 2048.
  apply rescale_bounds; lia.
Qed.

Lemma calibration_round_trip_witness :
  wf demo_machine /\
  exists m1 m2 m3,
    calibrate (0 :: [100; 200; 250] ++ 251 :: 252 :: []) 0 3700 demo_machine
    = Done (0, m1) /\
    wf m2 /\
    elt (CellScale (param m2)) 0 = elt (CellScale (param m1)) 0 /\
    update m2 = Done (tt, m3) /\
    3699 <= elt (VCell (lipo m3)) 0 <= 3700.
Proof.
  assert (Hcell : 0 <= 0 < AdcChCnt (lipo demo_machine)) by by_eval.
  assert (Hv : vref_reading demo_machine <> 0) by by_eval.
  assert (Ht0 : is_u32 0) by by_eval.
  assert (Hgate : gate_passes (lipo demo_machine) 0 [100; 200; 250] 251)
    by (split; [repeat constructor; by_eval | by_eval]).
  assert (Hk : calib_samples (length [100; 200; 250]) <> 0) by by_eval.
  assert (Hmv : calib_measured demo_machine 0 (length [100; 200; 250]) <> 0)
    by by_eval.
  assert (Hvolt : 0 <= 3700 < 2 ^ 21) by by_eval.
  split; [exact wf_demo_machine|].
  destruct (calibration_round_trip demo_machine 0 3700 0 [100; 200; 250]
              251 252 [] wf_demo_machine Hcell Hv Ht0 Hgate Hk Hmv Hvolt)
    as (m1 & Hrun & Hround).
  assert (E : calibrate (0 :: [100; 200; 250] ++ 251 :: 252 :: []) 0 3700
                        demo_machine
              = Done (0, calibrated demo_machine 0 3700 252 3)) by by_eval.
  pose proof Hrun as Hm1. rewrite E in Hm1. injection Hm1 as <-.
  set (m1 := calibrated demo_machine 0 3700 252 3) in *.
  set (m2 := after_sampling m1 [1; 1; 1; 1; 1; 1]).
  assert (Hwf2 : wf m2).
  { apply wf_after_sampling; [|reflexivity|repeat constructor; by_eval].
    apply wf_calibrated; [exact wf_demo_machine | by_eval | exact Hmv]. }
  assert (Hcnt2 : SampleCnt (lipo m2) <> 0) by by_eval.
  assert (Hsc : elt (CellScale (param m2)) 0 = elt (CellScale (param m1)) 0)
    by reflexivity.
  assert (Hvr : vref_reading m2 = vref_reading demo_machine) by by_eval.
  assert (Havg : elt (Accu (lipo m2)) 0 / SampleCnt (lipo m2) =
                 calib_raw demo_machine 0 (length [100; 200; 250])
                 / calib_samples (length [100; 200; 250])) by by_eval.
  destruct (Hround m2 Hwf2 Hcnt2 Hsc Hvr Havg) as (m3 & Hupd & Hlo & Hhi).
  exists m1, m2, m3.
  split; [exact Hrun|]. split; [exact Hwf2|]. split; [exact Hsc|].
  split; [exact Hupd|]. split; [|exact Hhi].
  assert (Emv : calib_measured demo_machine 0 (length [100; 200; 250]) = 1200)
    by by_eval.
  rewrite Emv in Hlo. exact Hlo.
Defined.

(** ** A whole window *)

Lemma poll_app ts us m :
  poll (ts ++ us) m =
  bind (poll ts) (fun bs => bind (poll us) (fun cs => ret (bs ++ cs))) m.
Proof.
  revert m. induction ts as [|t ts IH]; intros m.
  - simpl. unfold bind, ret. destruct (poll us m) as [[cs m']| |]; reflexivity.
  - simpl. unfold bind, ret.
    destruct (task t m) as [[b m1]| |]; try reflexivity.
    rewrite IH. unfold bind, ret.
    destruct (poll ts m1) as [[bs m2]| |]; try reflexivity.
    destruct (poll us m2) as [[cs m3]| |]; reflexivity.
Qed.

Lemma window_sum_snoc b pin stride k :
  forall from,
    window_sum b pin from stride (S k) =
    window_sum b pin from stride k
    + u32 (adc_code b pin (from + k * stride)%nat).
Proof.
  induction k as [|k IH]; intros from.
  - simpl. rewrite Nat.add_0_r. lia.
  - change (window_sum b pin from stride (S (S k)))
      with (u32 (adc_code b pin from)
            + window_sum b pin (from + stride) stride (S k)).
    rewrite IH. simpl.
    replace (from + stride + k * stride)%nat
      with (from + (stride + k * stride))%nat by lia.
    lia.
Qed.

Lemma window_sum_constant b pin r stride k :
  (forall n, u32 (adc_code b pin n) = r) ->
  forall from, window_sum b pin from stride k = r * Z.of_nat k.
Proof.
  intros Hr. induction k as [|k IH]; intros from.
  - simpl. lia.
  - cbn [window_sum]. rewrite Hr, IH. lia.
Qed.

(** [k] polls that do not finalise, one after the other. *)
Lemma poll_idle (ts : list Z) :
  forall m,
    wf m ->
    Forall (fun t => gate_elapsed t (lipo m) = false) ts ->
    exists a,
      poll ts m =
      Done (replicate (length ts) false,
            mkMachine (board m)
              (conversions m + length ts * Z.to_nat (AdcChCnt (lipo m)))%nat
              (param m)
              (set_Accu a
                 (set_SampleCnt
                    (u32 (SampleCnt (lipo m) + Z.of_nat (length ts)))
                    (lipo m)))) /\
      length a = length (Accu (lipo m)) /\
      Forall is_u32 a /\
      (forall i, 0 <= i < AdcChCnt (lipo m) ->
         elt a i =
         u32 (elt (Accu (lipo m)) i
              + window_sum (board m) (AdcChStart (lipo m) + i)
                           (conversions m + Z.to_nat i)
                           (Z.to_nat (AdcChCnt (lipo m))) (length ts))).
Proof.
  induction ts as [|t ts IH]; intros m Hwf Hall.
  - exists (Accu (lipo m)). pose proof Hwf as [Hl Hp].
    split; [|split; [reflexivity|split; [apply (wf_accu _ Hl)|]]].
    + simpl. unfold ret. do 2 f_equal.
      rewrite Z.add_0_r, (u32_id _ (wf_scnt _ Hl)).
      destruct m as [b n p []]. simpl. f_equal. lia.
    + intros i Hi. simpl. rewrite Z.add_0_r. symmetry. apply u32_id.
      apply elt_Forall; [apply (wf_accu _ Hl)|].
      rewrite (wf_accu_len _ Hl), <- (wf_cnt _ Hl). exact Hi.
  - inversion Hall as [|? ? Ht Hall']; subst.
    destruct (task_idle_values t m Hwf Ht) as (a1 & Hrun1 & Hlen1 & Ha1 & Hval1).
    pose proof (wf_after_sampling m a1 Hwf Hlen1 Ha1) as Hwf1.
    destruct (IH (after_sampling m a1) Hwf1 Hall')
      as (a & Hrun & Hlen & Ha & Hval).
    exists a. split; [|split; [|split]].
    + cbn [poll]. run_with Hrun1. run_with Hrun.
      unfold ret. cbn [length replicate]. do 2 f_equal.
      unfold after_sampling. msimpl. f_equal; [lia|].
      unfold set_Accu, set_SampleCnt. simpl. f_equal.
      rewrite u32_add_l. f_equal. lia.
    + rewrite Hlen. exact Hlen1.
    + exact Ha.
    + intros i Hi. rewrite (Hval i Hi). unfold after_sampling. msimpl.
      rewrite (Hval1 i Hi), u32_add_l. unfold sample_of.
      cbn [length window_sum]. f_equal.
      replace (conversions m + Z.to_nat (AdcChCnt (lipo m)) + Z.to_nat i)%nat
        with (conversions m + Z.to_nat i + Z.to_nat (AdcChCnt (lipo m)))%nat
        by lia.
      lia.
Qed.

(** X13.  A whole window.  After [k] polls that stay within the gate time
    and one poll that crosses it, [Samples] is the number of polls of the
    window, and the voltage of every channel is computed from the sum of
    the raw codes of all these polls (modulo [2^32]) divided by that
    number.  In particular a channel that delivers the same code [r] at
    every conversion of a fresh window is averaged to exactly [r], as long
    as the sum fits in 32 bits. *)
Theorem window_average ts t m i :
  wf m ->
  Forall (fun t' => u32 (t' - LastTick (lipo m)) < GateTime (lipo m)) ts ->
  is_u32 t ->
  GateTime (lipo m) <= u32 (t - LastTick (lipo m)) ->
  SampleCnt (lipo m) + Z.of_nat (length ts) < UINT32_MAX ->
  0 <= i < AdcChCnt (lipo m) ->
  let k := length ts in
  let cnt := Z.to_nat (AdcChCnt (lipo m)) in
  let reading :=
    u32 (adc_code (board m) (AVREF (board m))
                  (conversions m + k * cnt + cnt)%nat) in
  let total :=
    u32 (elt (Accu (lipo m)) i
         + window_sum (board m) (AdcChStart (lipo m) + i)
                      (conversions m + Z.to_nat i) cnt (S k)) in
  let avg := total / (SampleCnt (lipo m) + Z.of_nat k + 1) in
  let vref := LIPO_VREFINT * LL_ADC_DIGITAL_SCALE / reading in
  reading <> 0 ->
  exists m',
    poll (ts ++ [t]) m = Done (replicate k false ++ [true], m') /\
    Samples (lipo m') = SampleCnt (lipo m) + Z.of_nat k + 1 /\
    elt (VCell (lipo m')) i =
      Z.shiftr (u32 (u32 (avg * vref) / LL_ADC_DIGITAL_SCALE
                     * elt (CellScale (param m)) i))
               LIPO_DENOMINATOR /\
    (forall r,
       SampleCnt (lipo m) = 0 -> elt (Accu (lipo m)) i = 0 ->
       (forall n, u32 (adc_code (board m) (AdcChStart (lipo m) + i) n) = r) ->
       r * (Z.of_nat k + 1) < 2 ^ 32 ->
       avg = r).
Proof.
  intros Hwf Hidle Ht Hge Hmax Hi k cnt reading total avg vref Hread.
  pose proof Hwf as [Hl Hp].
  pose proof (wf_scnt _ Hl) as [Hn0 Hn1].
  assert (Hidle' : Forall (fun t' => gate_elapsed t' (lipo m) = false) ts).
  { eapply Forall_impl; [exact Hidle|]. intros t' Hlt.
    unfold gate_elapsed. apply Z.leb_gt. exact Hlt. }
  destruct (poll_idle ts m Hwf Hidle') as (a & Hrun & Hlen & Ha & Hval).
  fold k cnt in Hrun.
  set (mk := mkMachine (board m) (conversions m + k * cnt)%nat (param m)
               (set_Accu a
                  (set_SampleCnt (u32 (SampleCnt (lipo m) + Z.of_nat k))
                                 (lipo m)))) in *.
  assert (Hcntk : u32 (SampleCnt (lipo m) + Z.of_nat k)
                  = SampleCnt (lipo m) + Z.of_nat k).
  { apply u32_id. unfold is_u32, UINT32_MAX in *. lia. }
  assert (Hwfk : wf mk).
  { split; [|exact Hp]. simpl.
    apply wf_set_Accu; [|exact Hlen|exact Ha].
    apply wf_set_SampleCnt; [exact Hl | apply u32_range]. }
  assert (Hgate : gate_elapsed t (lipo mk) = true).
  { unfold gate_elapsed. simpl. apply Z.leb_le. exact Hge. }
  assert (Hmaxk : SampleCnt (lipo mk) <> UINT32_MAX).
  { simpl. rewrite Hcntk. lia. }
  assert (Hvk : task_vref_reading mk <> 0) by exact Hread.
  destruct (task_fire_values t mk Hwfk Ht Hgate Hmaxk Hvk)
    as (m' & Hfire & _ & _ & _ & _ & Hs & _ & _ & Hall).
  assert (Htotal : u32 (elt (Accu (lipo mk)) i + sample_of mk i) = total).
  { unfold total, mk, sample_of. msimpl.
    rewrite (Hval i Hi), u32_add_l. fold k cnt.
    rewrite window_sum_snoc. f_equal.
    replace (conversions m + k * cnt + Z.to_nat i)%nat
      with (conversions m + Z.to_nat i + k * cnt)%nat by lia.
    lia. }
  exists m'. split; [|split; [|split]].
  - rewrite poll_app. run_with Hrun. cbn [poll].
    unfold bind at 1. fold mk. run_with Hfire. reflexivity.
  - rewrite Hs. simpl. rewrite Hcntk. reflexivity.
  - destruct (Hall i Hi) as [_ Hv]. rewrite Hv, Htotal.
    simpl. rewrite Hcntk, (wf_den _ Hl).
    unfold LL_ADC_CALC_DATA_TO_VOLTAGE. reflexivity.
  - intros r H0 HA Hr Hfit. unfold avg, total.
    rewrite H0, HA, (window_sum_constant _ _ r _ _ Hr).
    assert (Hr0 : 0 <= r).
    { rewrite <- (Hr 0%nat). apply u32_range. }
    rewrite Z.add_0_l, u32_id by (unfold is_u32; lia).
    replace (0 + Z.of_nat k + 1) with (Z.of_nat (S k)) by lia.
    apply Z.div_mul. lia.
Qed.

Lemma window_average_witness :
  wf demo_machine /\
  exists m',
    poll ([10; 100; 249] ++ [250]) demo_machine
    = Done ([false; false; false; true], m') /\
    Samples (lipo m') = 4 /\
    elt (VCell (lipo m')) 2 = 1200.
Proof.
  assert (Hidle : Forall (fun t' => u32 (t' - LastTick (lipo demo_machine))
                                    < GateTime (lipo demo_machine))
                         [10; 100; 249]) by (repeat constructor; by_eval).
  assert (Ht : is_u32 250) by by_eval.
  assert (Hge : GateTime (lipo demo_machine)
                <= u32 (250 - LastTick (lipo demo_machine))) by by_eval.
  assert (Hmax : SampleCnt (lipo demo_machine)
                 + Z.of_nat (length [10; 100; 249]) < UINT32_MAX) by by_eval.
  assert (Hi : 0 <= 2 < AdcChCnt (lipo demo_machine)) by by_eval.
  split; [exact wf_demo_machine|].
  destruct (window_average [10; 100; 249] 250 demo_machine 2 wf_demo_machine
              Hidle Ht Hge Hmax Hi ltac:(by_eval))
    as (m' & Hrun & Hs & Hv & _).
  exists m'. split; [exact Hrun|]. split; [exact Hs|].
  rewrite Hv. by_eval.
Defined.

(** ** Time and range *)

Lemma elapsed_across_rollover last d :
  0 <= d < 2 ^ 32 -> u32 (u32 (last + d) - last) = d.
Proof.
  intros Hd. unfold u32. rewrite Zminus_mod_idemp_l.
  replace (last + d - last) with d by lia. apply Z.mod_small. exact Hd.
Qed.

Lemma Forall_elt (P : Z -> Prop) (l : list Z) :
  (forall i, 0 <= i < Z.of_nat (length l) -> P (elt l i)) -> Forall P l.
Proof.
  intros H. apply Forall_lookup_2. intros n x Hx.
  pose proof (lookup_lt_Some _ _ _ Hx) as Hn.
  specialize (H (Z.of_nat n) ltac:(lia)). unfold elt in H.
  rewrite Nat2Z.id in H. rewrite (nth_lookup_Some _ _ 0 _ Hx) in H. exact H.
Qed.

Lemma reachable_VCell_range m :
  reachable m -> Forall (fun v => 0 <= v < 2 ^ 21) (VCell (lipo m)).
Proof.
  induction 1 as [b p Hp | m p Hm IH Hp | m g m' Hm IH Hg Hrun
                  | m t r m' Hm IH Ht Hrun
                  | m clock cell voltage r m' Hm IH Hclock Hrun].
  - repeat constructor; lia.
  - exact IH.
  - injection Hrun as <-. exact IH.
  - pose proof (reachable_wf m Hm) as Hwf.
    destruct (task_done_cases _ _ _ _ Hwf Ht Hrun)
      as [(_ & _ & a & ->)|(Hgate & -> & Hmax & Hv)]; [exact IH|].
    destruct (task_fire_values t m Hwf Ht Hgate Hmax Hv)
      as (m2 & Hrun2 & Hwf2 & _ & _ & _ & _ & _ & _ & Hall).
    rewrite Hrun2 in Hrun. injection Hrun as <-.
    apply Forall_elt. intros i Hi.
    rewrite (wf_vcell_len _ (proj1 Hwf2)), <- (wf_cnt _ (proj1 Hwf)) in Hi.
    destruct (Hall i Hi) as [_ ->].
    rewrite (wf_den _ (proj1 Hwf)). unfold LIPO_DENOMINATOR.
    rewrite Z.shiftr_div_pow2 by lia.
    match goal with |- 0 <= u32 ?x / _ < _ =>
      pose proof (u32_range x) as [H0 H1] end.
    split; [apply Z.div_pos; lia|].
    apply Z.div_lt_upper_bound; [lia|]. exact H1.
  - pose proof (reachable_wf m Hm) as Hwf.
    destruct (calibrate_done_inv _ _ _ _ _ _ Hwf Hclock Hrun)
      as (t0 & pre & tEnd & t1 & post & _ & _ & _ & _ & _ & _ & _ & ->).
    exact IH.
Qed.

(** X14.  The gate test measures elapsed time correctly across the
    rollover of the 32-bit millisecond clock: a returning poll at a time
    [d] ms after the last tick, [d < 2^32], finalises exactly when
    [d >= GateTime], whether or not the clock has wrapped in between. *)
Theorem gate_across_rollover d m b m' :
  wf m -> 0 <= d < 2 ^ 32 ->
  task (u32 (LastTick (lipo m) + d)) m = Done (b, m') ->
  (b = true <-> GateTime (lipo m) <= d).
Proof.
  intros Hwf Hd Hdone.
  destruct (task_done_cases _ _ _ _ Hwf (u32_range _) Hdone)
    as [(Hgate & -> & _)|(Hgate & -> & _)];
    unfold gate_elapsed in Hgate;
    rewrite (elapsed_across_rollover _ _ Hd) in Hgate.
  - apply Z.leb_gt in Hgate. split; [discriminate | lia].
  - apply Z.leb_le in Hgate. tauto.
Qed.

Lemma gate_across_rollover_witness :
  wf (with_lipo (set_LastTick 4294967196) demo_machine) /\
  0 <= 250 < 2 ^ 32 /\
  exists b m',
    task (u32 (4294967196 + 250))
         (with_lipo (set_LastTick 4294967196) demo_machine)
    = Done (b, m') /\
    b = true.
Proof.
  assert (Hwf : wf (with_lipo (set_LastTick 4294967196) demo_machine)).
  { destruct wf_demo_machine as [Hl Hp]. split; [|exact Hp].
    apply wf_set_LastTick; [exact Hl | by_eval]. }
  assert (Hd : 0 <= 250 < 2 ^ 32) by by_eval.
  assert (Hgate : GateTime (lipo (with_lipo (set_LastTick 4294967196)
                                            demo_machine)) <= 250) by by_eval.
  split; [exact Hwf|]. split; [exact Hd|].
  destruct (task (u32 (4294967196 + 250))
                 (with_lipo (set_LastTick 4294967196) demo_machine))
    as [[b m']| |] eqn:Hrun; try (vm_compute in Hrun; discriminate).
  exists b, m'. split; [reflexivity|].
  apply (gate_across_rollover 250 _ b m' Hwf Hd Hrun). exact Hgate.
Defined.

(** X15.  In every reachable state the voltages the accessors report are
    below [2^21] mV: [update] stores a 32-bit product shifted right by
    [LIPO_DENOMINATOR] = 11 bits. *)
Theorem reported_voltage_range m i abs :
  reachable m -> 0 <= i < AdcChCnt (lipo m) ->
  exists v, getCell (lipo m) i abs = Done v /\ 0 <= v < 2 ^ 21.
Proof.
  intros Hm Hi. pose proof (reachable_wf m Hm) as [Hl _].
  pose proof (reachable_VCell_range m Hm) as Hrange.
  assert (Hlen : forall j, 0 <= j < AdcChCnt (lipo m) ->
                           0 <= elt (VCell (lipo m)) j < 2 ^ 21).
  { intros j Hj. apply (elt_Forall _ _ _ Hrange).
    rewrite (wf_vcell_len _ Hl), <- (wf_cnt _ Hl). exact Hj. }
  destruct abs.
  - exists (elt (VCell (lipo m)) i).
    split; [apply getCell_abs; assumption | apply Hlen; exact Hi].
  - exists (cell_mv (lipo m) i).
    split; [apply getCell_cell_mv; assumption|].
    pose proof (Hlen i Hi) as Hv. unfold cell_mv.
    destruct (i =? 0) eqn:E.
    + apply Z.eqb_eq in E. subst i. exact Hv.
    + apply Z.eqb_neq in E. pose proof (Hlen (i - 1) ltac:(lia)) as Hp.
      destruct (elt (VCell (lipo m)) (i - 1) <=? elt (VCell (lipo m)) i) eqn:E2;
        [apply Z.leb_le in E2|]; lia.
Qed.

Lemma reported_voltage_range_witness :
  reachable demo_machine /\ 0 <= 3 < AdcChCnt (lipo demo_machine) /\
  exists v, getCell (lipo demo_machine) 3 false = Done v /\ v < 2 ^ 21.
Proof.
  assert (Hr : reachable demo_machine)
    by exact (reach_boot demo_board demo_params wf_demo_params).
  assert (Hi : 0 <= 3 < AdcChCnt (lipo demo_machine)) by by_eval.
  split; [exact Hr|]. split; [exact Hi|].
  destruct (reported_voltage_range demo_machine 3 false Hr Hi)
    as (v & Hrun & _ & Hlt).
  exists v. split; assumption.
Defined.
